(** * Graphiti tutorials: a shallow embedding of the two scripts

    The repository holds two Python scripts, [beginner/tutorial.py] and
    [advanced/tutorial.py].  Both are sequential procedures around an
    external knowledge-graph client.  The embedding keeps the scripts'
    own code (string formatting, branching, exception handling, the
    order of the external calls) and takes every external answer from a
    [world] of oracles.  A run produces a result and a trace of
    observable events. *)

From Stdlib Require Import String Ascii List ZArith Bool Lia DecimalString.
From stdpp Require Import base option strings gmap.
Import ListNotations.

Set Warnings "-register-all".

Local Open Scope string_scope.
Local Open Scope list_scope.

(** ** Python runtime pieces used by the scripts *)

Module Py.

(** The newline character; the two-character text backslash-n is a
    different string, written [bsn] below. *)
Definition nl : string := String (ascii_of_nat 10) "".

(** The source text ['\\n'] of [advanced/tutorial.py]: an escaped
    backslash followed by the letter n. *)
Definition bsn : string := String (ascii_of_nat 92) "n".

(** [sep.join(parts)] *)
Fixpoint join (sep : string) (parts : list string) : string :=
  match parts with
  | [] => ""
  | [x] => x
  | x :: rest => x +:+ sep +:+ join sep rest
  end.

(** [str.lower] on the ASCII range; bytes of non-ASCII characters are
    left as they are. *)
Definition lower_ascii (c : ascii) : ascii :=
  let n := nat_of_ascii c in
  if (65 <=? n)%nat && (n <=? 90)%nat then ascii_of_nat (n + 32) else c.

Fixpoint lower (s : string) : string :=
  match s with
  | EmptyString => EmptyString
  | String c r => String (lower_ascii c) (lower r)
  end.

(** Exception classes that occur in the scripts or can come out of the
    external calls.  [KeyboardInterrupt] and [CancelledError] derive
    from [BaseException] only. *)
Inductive exn_class :=
| IndexError | AttributeError | KeyError | TypeError | ValueError
| EOFError | FileError | RuntimeError
| KeyboardInterrupt | CancelledError.

#[global] Instance exn_class_eq_dec : EqDecision exn_class.
Proof. solve_decision. Defined.

(** [isinstance(e, Exception)] *)
Definition is_Exception (c : exn_class) : bool :=
  match c with
  | KeyboardInterrupt | CancelledError => false
  | _ => true
  end.

(** An exception object: its class and [str(e)]. *)
Record exn := Exn { exn_cls : exn_class; exn_str : string }.

#[global] Instance exn_eq_dec : EqDecision exn.
Proof. solve_decision. Defined.

(** Values that [json.load] builds.  A float carries its [repr]. *)
Inductive pyval :=
| PNone
| PBool (b : bool)
| PInt (z : Z)
| PFloat (repr : string)
| PStr (s : string)
| PList (items : list pyval)
| PDict (items : list (string * pyval)).

(** Decimal rendering of integers, as [str(int)]. *)
Definition str_of_Z (z : Z) : string := NilZero.string_of_int (Z.to_int z).
Definition str_of_nat (n : nat) : string := NilZero.string_of_uint (Nat.to_uint n).

Fixpoint contains_char (c : ascii) (s : string) : bool :=
  match s with
  | EmptyString => false
  | String d r => if Ascii.eqb c d then true else contains_char c r
  end.

Definition hex_digit (n : nat) : ascii :=
  ascii_of_nat (if (n <? 10)%nat then 48 + n else 87 + n).

(** One character of [repr(str)] with quote character [q].  The bytes
    of a non-ASCII character are copied as they are, which is what
    Python does for a printable character; non-printable characters
    outside ASCII, which Python escapes, are not covered. *)
Definition repr_char (q : ascii) (c : ascii) : string :=
  let n := nat_of_ascii c in
  if Ascii.eqb c q then String (ascii_of_nat 92) (String c "")
  else if (n =? 92)%nat then String c (String c "")
  else if (n =? 10)%nat then bsn
  else if (n =? 13)%nat then String (ascii_of_nat 92) "r"
  else if (n =? 9)%nat then String (ascii_of_nat 92) "t"
  else if (n <? 32)%nat || (n =? 127)%nat then
    String (ascii_of_nat 92)
      (String "x" (String (hex_digit (n / 16)) (String (hex_digit (n mod 16)) "")))
  else String c "".

Fixpoint repr_chars (q : ascii) (s : string) : string :=
  match s with
  | EmptyString => EmptyString
  | String c r => repr_char q c +:+ repr_chars q r
  end.

Definition squote : ascii := ascii_of_nat 39.
Definition dquote : ascii := ascii_of_nat 34.

(** [repr(s)] for a string: single quotes, unless the text has a single
    quote and no double quote. *)
Definition repr_str (s : string) : string :=
  let q := if contains_char squote s && negb (contains_char dquote s)
           then dquote else squote in
  String q (repr_chars q s +:+ String q "").

(** [repr(v)]; for a dict this is also [str(v)]. *)
Fixpoint repr (v : pyval) : string :=
  match v with
  | PNone => "None"
  | PBool true => "True"
  | PBool false => "False"
  | PInt z => str_of_Z z
  | PFloat r => r
  | PStr s => repr_str s
  | PList items => "[" +:+ join ", " (map repr items) +:+ "]"
  | PDict items =>
      "{" +:+ join ", " (map (fun kv => let '(k, x) := kv in repr_str k +:+ ": " +:+ repr x) items) +:+ "}"
  end.

(** [str(v)]: a string is itself, everything else is its [repr]. *)
Definition str (v : pyval) : string :=
  match v with
  | PStr s => s
  | _ => repr v
  end.

(** A continuation byte of a UTF-8 sequence (binary 10xxxxxx). *)
Definition is_continuation (c : ascii) : bool :=
  let n := nat_of_ascii c in (128 <=? n)%nat && (n <? 192)%nat.

(** [len(s)]: the number of characters (code points), each of which is
    one byte that is not a continuation byte, followed by its
    continuation bytes. *)
Fixpoint len (s : string) : nat :=
  match s with
  | EmptyString => 0
  | String c r => if is_continuation c then len r else S (len r)
  end.

(** [s[:n]]: the first [n] characters, with all their bytes. *)
Fixpoint slice_to (n : nat) (s : string) : string :=
  match s with
  | EmptyString => EmptyString
  | String c r =>
      if is_continuation c then String c (slice_to n r)
      else match n with
           | O => EmptyString
           | S n' => String c (slice_to n' r)
           end
  end.

(** [d.get(key, default)] on the items of a dict. *)
Fixpoint dict_get (key : string) (items : list (string * pyval)) (default : pyval) : pyval :=
  match items with
  | [] => default
  | (k, v) :: rest => if String.eqb k key then v else dict_get key rest default
  end.

(** [key in d] *)
Definition dict_mem (key : string) (items : list (string * pyval)) : bool :=
  existsb (fun kv => String.eqb (fst kv) key) items.

End Py.

(** ** Effects: results, traces and the external world *)

Module Eff.
Import Py.

(** Objects returned by the external library. *)
Record EntityEdge := {
  edge_uuid : string;
  fact : string;
  source_node_uuid : string;
  valid_at : option string;     (* rendered datetime, [None] when absent or falsy *)
  invalid_at : option string
}.

Record EntityNode := {
  uuid : string;
  name : string;
  summary : string;
  labels : list string;
  created_at : string;
  attributes : list (string * pyval)
}.

(** What [client._search] hands back: an object with a [nodes] list, or
    something without that attribute. *)
Inductive SearchResults :=
| WithNodes (nodes : list EntityNode)
| WithoutNodes.

Inductive EpisodeType := text | json | message.

Definition EpisodeType_value (t : EpisodeType) : string :=
  match t with text => "text" | json => "json" | message => "message" end.

Inductive recipe :=
| NODE_HYBRID_SEARCH_EPISODE_MENTIONS
| NODE_HYBRID_SEARCH_RRF.

Record SearchConfig := { config_recipe : recipe; limit : option nat }.

(** Chat messages of the orchestration framework. *)
Inductive msg_kind := SystemMessage | HumanMessage | AIMessage | ToolMessage.

(** A message content is a [str], or something else of which only the
    [str()] rendering is kept. *)
Inductive msg_content :=
| CStr (s : string)
| COther (rendered : string).

Definition content_str (c : msg_content) : string :=
  match c with CStr s => s | COther r => r end.

(** Only an [AIMessage] has the attribute [tool_calls]; for the other
    kinds the field is not read. *)
Record Message := {
  kind : msg_kind;
  content : msg_content;
  tool_calls : list string
}.

Definition isinstance_AIMessage (m : Message) : bool :=
  match kind m with AIMessage => true | _ => false end.

(** The [State] TypedDict of [advanced/tutorial.py]. *)
Record State := {
  messages : list Message;
  user_name : string;
  user_node_uuid : option string;
  manybirds_node_uuid : option string
}.

(** The dict that [main] passes to [graph.astream]: one user message
    given as a role/content pair, and the entries of [user_state]. *)
Record GraphState := {
  gs_messages : list (string * string);
  gs_user_name : string;
  gs_user_node_uuid : option string;
  gs_manybirds_node_uuid : option string
}.

(** One event of the stream: the values of the event dict; each value
    has a [messages] list or no such key. *)
Definition StreamEvent := list (option (list Message)).

(** External calls. *)
Inductive call :=
| clear_data
| build_indices_and_constraints
| add_episode (ep_name : pyval) (episode_body : string)
              (source_description : string) (source : EpisodeType)
| search (query : string) (center_node_uuid : option string) (num_results : option nat)
| _search (query : string) (config : SearchConfig)
| llm_ainvoke (msgs : list Message)
| astream (gs : GraphState) (thread_id : string)
| close.

Inductive level := INFO | WARNING | ERROR.

(** Observable events, in the order they happen. *)
Inductive event :=
| EvInput (prompt : string) (line : option string)
| EvPrint (text : string) (end_ : string)
| EvLog (lvl : level) (msg : string)
| EvAwait (c : call)
| EvCreateTask (c : call).

Definition trace := list event.

Inductive res (A : Type) :=
| Ok (a : A)
| Raise (e : exn).
Arguments Ok {A} a.
Arguments Raise {A} e.

(** The answers of everything outside the scripts.  An oracle sees the
    trace up to and including the call it answers. *)
Record world := {
  w_clear_data : trace -> res unit;
  w_build_indices : trace -> res unit;
  w_add_episode : trace -> res unit;
  w_search : trace -> res (list EntityEdge);
  w_node_search : trace -> res SearchResults;
  w_llm : trace -> res Message;
  w_astream : trace -> list StreamEvent * option exn;
  w_close : trace -> res unit;
  w_json_file_path : string;
  w_products_file : option (res pyval);
  w_uuid4_hex : string
}.

(** A computation reads the trace so far and extends it. *)
Definition M (A : Type) : Type := trace -> res A * trace.

Definition ret {A} (a : A) : M A := fun tr => (Ok a, tr).

Definition raise {A} (e : exn) : M A := fun tr => (Raise e, tr).

Definition bind {A B} (c : M A) (k : A -> M B) : M B :=
  fun tr =>
    match c tr with
    | (Ok a, tr') => k a tr'
    | (Raise e, tr') => (Raise e, tr')
    end.

(** [try: body except <classes>: handler] *)
Definition try_except {A} (body : M A) (catches : exn_class -> bool)
    (handler : exn -> M A) : M A :=
  fun tr =>
    match body tr with
    | (Ok a, tr') => (Ok a, tr')
    | (Raise e, tr') =>
        if catches (exn_cls e) then handler e tr' else (Raise e, tr')
    end.

(** [try: body finally: cleanup] *)
Definition try_finally {A} (body : M A) (cleanup : M unit) : M A :=
  fun tr =>
    match body tr with
    | (r, tr') =>
        match cleanup tr' with
        | (Ok _, tr'') => (r, tr'')
        | (Raise e, tr'') => (Raise e, tr'')
        end
    end.

Definition emit (e : event) : M unit := fun tr => (Ok tt, tr ++ [e]).

Definition print (text : string) : M unit := emit (EvPrint text nl).
Definition print_end (text end_ : string) : M unit := emit (EvPrint text end_).
Definition log (lvl : level) (msg : string) : M unit := emit (EvLog lvl msg).

(** [await <external call>] *)
Definition await {A} (c : call) (oracle : trace -> res A) : M A :=
  fun tr => let tr' := tr ++ [EvAwait c] in (oracle tr', tr').

(** [asyncio.create_task(<coroutine of c>)]: the task is scheduled and
    its handle dropped; nothing of its outcome comes back. *)
Definition create_task (c : call) : M unit := emit (EvCreateTask c).

(** [input(prompt)] reading from the remaining lines of standard input. *)
Definition input (prompt : string) (stdin : list string) : M (string * list string) :=
  fun tr =>
    match stdin with
    | [] => (Raise (Exn EOFError "EOF when reading a line"), tr ++ [EvInput prompt None])
    | line :: rest => (Ok (line, rest), tr ++ [EvInput prompt (Some line)])
    end.

Declare Scope eff_scope.
Delimit Scope eff_scope with eff.
Notation "x <- c ;; k" := (bind c (fun x => k))
  (at level 100, c at next level, right associativity) : eff_scope.
Notation "c ;; k" := (bind c (fun _ => k))
  (at level 100, right associativity) : eff_scope.

(** [xs[0]] and [xs[-1]] *)
Definition first_item {A} (xs : list A) : res A :=
  match xs with
  | [] => Raise (Exn IndexError "list index out of range")
  | x :: _ => Ok x
  end.

Definition last_item {A} (xs : list A) : res A :=
  match last xs with
  | None => Raise (Exn IndexError "list index out of range")
  | Some x => Ok x
  end.

Definition lift {A} (r : res A) : M A := fun tr => (r, tr).

End Eff.

(** ** Connection settings (both scripts, module level) *)

Module Config.
Import Py Eff.

(** [os.environ.get(key, default_value)] *)
Definition environ_get (environ : gmap string string) (key default_value : string) : string :=
  default default_value (environ !! key).

Definition neo4j_uri (environ : gmap string string) : string :=
  environ_get environ "NEO4J_URI" "bolt://localhost:7687".
Definition neo4j_user (environ : gmap string string) : string :=
  environ_get environ "NEO4J_USER" "neo4j".
Definition neo4j_password (environ : gmap string string) : string :=
  environ_get environ "NEO4J_PASSWORD" "password".

(** The arguments of the [Graphiti(...)] constructor. *)
Record Graphiti := { g_uri : string; g_user : string; g_password : string }.

(** [advanced/tutorial.py]: the client is built at import time. *)
Definition advanced_client (environ : gmap string string) : Graphiti :=
  {| g_uri := neo4j_uri environ;
     g_user := neo4j_user environ;
     g_password := neo4j_password environ |}.

(** [not s] for a string *)
Definition py_not_str (s : string) : bool := String.eqb s "".

(** [beginner/tutorial.py]: the module-level check, then the client
    that [main] builds. *)
Definition beginner_client (environ : gmap string string) : res Graphiti :=
  if py_not_str (neo4j_uri environ) || py_not_str (neo4j_user environ)
     || py_not_str (neo4j_password environ)
  then Raise (Exn ValueError "NEO4J_URI, NEO4J_USER, and NEO4J_PASSWORD must be set")
  else Ok {| g_uri := neo4j_uri environ;
             g_user := neo4j_user environ;
             g_password := neo4j_password environ |}.

End Config.

(** ** advanced/tutorial.py *)

Module Advanced.
Import Py Eff.
Local Open Scope eff_scope.

(** Python type names, for the messages of [TypeError] and
    [AttributeError]. *)
Definition type_name (v : pyval) : string :=
  match v with
  | PNone => "NoneType" | PBool _ => "bool" | PInt _ => "int"
  | PFloat _ => "float" | PStr _ => "str" | PList _ => "list" | PDict _ => "dict"
  end.

(** [json.load(file)['products']] applied to the loaded value. *)
Definition subscript_products (root : pyval) : res pyval :=
  match root with
  | PDict items =>
      if dict_mem "products" items then Ok (dict_get "products" items PNone)
      else Raise (Exn KeyError "'products'")
  | PList _ =>
      Raise (Exn TypeError "list indices must be integers or slices, not str")
  | PStr _ =>
      Raise (Exn TypeError "string indices must be integers, not 'str'")
  | v => Raise (Exn TypeError ("'" +:+ type_name v +:+ "' object is not subscriptable"))
  end.

Fixpoint chars (s : string) : list pyval :=
  match s with
  | EmptyString => []
  | String c r => PStr (String c "") :: chars r
  end.

(** The items that [enumerate(products)] walks through. *)
Definition iterate (products : pyval) : res (list pyval) :=
  match products with
  | PList items => Ok items
  | PDict items => Ok (map (fun kv => PStr (fst kv)) items)
  | PStr s => Ok (chars s)
  | v => Raise (Exn TypeError ("'" +:+ type_name v +:+ "' object is not iterable"))
  end.

(** [{k: v for k, v in product.items() if k != 'images'}] *)
Definition without_images (items : list (string * pyval)) : list (string * pyval) :=
  List.filter (fun kv => negb (String.eqb (fst kv) "images")) items.

(** The episode that the ingestion loop sends for [product] at index [i]. *)
Definition product_episode (i : nat) (items : list (string * pyval)) : call :=
  add_episode (dict_get "title" items (PStr ("Product " +:+ str_of_nat i)))
              (str (PDict (without_images items)))
              "ManyBirds products" json.

(** [for i, product in enumerate(products): await client.add_episode(...)],
    started at index [i]. *)
Fixpoint ingest (W : world) (i : nat) (products : list pyval) : M unit :=
  match products with
  | [] => ret tt
  | product :: rest =>
      match product with
      | PDict items =>
          await (product_episode i items) (w_add_episode W) ;;
          ingest W (S i) rest
      | v => raise (Exn AttributeError
                      ("'" +:+ type_name v +:+ "' object has no attribute 'get'"))
      end
  end.

(** [node_list.nodes[0].uuid] *)
Definition nodes_0_uuid (node_list : SearchResults) : res string :=
  match node_list with
  | WithoutNodes =>
      Raise (Exn AttributeError "'NoneType' object has no attribute 'nodes'")
  | WithNodes ns =>
      match first_item ns with
      | Ok n => Ok (uuid n)
      | Raise e => Raise e
      end
  end.

Definition EPISODE_MENTIONS : SearchConfig :=
  {| config_recipe := NODE_HYBRID_SEARCH_EPISODE_MENTIONS; limit := None |}.

Definition setup_database (W : world) : M (option string * option string) :=
  log INFO "Setting up the database. This may take a moment..." ;;
  log WARNING "This will clear all existing data in the graph!" ;;
  await clear_data (w_clear_data W) ;;
  await build_indices_and_constraints (w_build_indices W) ;;
  log INFO "Database cleared and schema built." ;;
  match w_products_file W with
  | None =>
      log ERROR ("Product data not found at " +:+ w_json_file_path W) ;;
      ret (None, None)
  | Some file =>
      root <- lift file ;;
      products <- lift (subscript_products root) ;;
      items <- lift (iterate products) ;;
      ingest W 0 items ;;
      log INFO (str_of_nat (length items) +:+ " products ingested.") ;;
      let user_name := "jess" in
      await (add_episode (PStr "User Creation")
               (user_name +:+ " is interested in buying a pair of shoes")
               "SalesBot" text) (w_add_episode W) ;;
      user_node_list <- await (_search user_name EPISODE_MENTIONS) (w_node_search W) ;;
      user_node_uuid <- lift (nodes_0_uuid user_node_list) ;;
      manybirds_node_list <- await (_search "ManyBirds" EPISODE_MENTIONS) (w_node_search W) ;;
      manybirds_node_uuid <- lift (nodes_0_uuid manybirds_node_list) ;;
      log INFO "User node and brand node created." ;;
      ret (Some user_node_uuid, Some manybirds_node_uuid)
  end.

(** ['- ' + '\\n- '.join([edge.fact for edge in entities])]: the
    separator is backslash, n, dash, space. *)
Definition edges_to_facts_string (entities : list EntityEdge) : string :=
  "- " +:+ join (bsn +:+ "- ") (map fact entities).

Definition get_shoe_data (W : world) (query : string) (state : State) : M string :=
  log INFO ("Tool `get_shoe_data` called with query: " +:+ query) ;;
  edge_results <- await (search query (manybirds_node_uuid state) (Some 10)) (w_search W) ;;
  ret (edges_to_facts_string edge_results).

(** [facts_string or <fallback>] *)
Definition or_default (facts_string : option string) (fallback : string) : string :=
  match facts_string with
  | Some EmptyString | None => fallback
  | Some s => s
  end.

Definition system_prompt (facts_string : option string) : string :=
  join nl [
    "You are a skillful shoe salesperson for ManyBirds. Review the user info and conversation history below to respond.";
    "        Keep responses concise. Your goal is to be helpful and make a sale.";
    "";
    "        Key info to gather:";
    "        - Shoe size";
    "        - Specific needs (e.g., wide feet)";
    "        - Preferred colors and styles";
    "        - Budget";
    "";
    "        Ask for this info if you don't have it.";
    "";
    "        Facts about the user and their conversation:";
    "        " +:+ or_default facts_string "No facts about the user and their conversation"
  ].

Definition chatbot (W : world) (state : State) : M (list Message) :=
  log INFO "Chatbot node is executing." ;;
  facts_string <-
    (if (0 <? length (messages state))%nat then
       last_message <- lift (last_item (messages state)) ;;
       let graphiti_query :=
         (if isinstance_AIMessage last_message then "SalesBot" else user_name state)
         +:+ ": " +:+ content_str (content last_message) in
       edge_results <- await (search graphiti_query (user_node_uuid state) (Some 5))
                             (w_search W) ;;
       let facts_string := edges_to_facts_string edge_results in
       log INFO ("Retrieved facts for context: " +:+ bsn +:+ facts_string) ;;
       ret (Some facts_string)
     else ret None) ;;
  let system_message :=
    {| kind := SystemMessage; content := CStr (system_prompt facts_string);
       tool_calls := [] |} in
  let msgs := system_message :: messages state in
  response <- await (llm_ainvoke msgs) (w_llm W) ;;
  log INFO ("LLM generated response: " +:+ content_str (content response)) ;;
  last_message <- lift (last_item (messages state)) ;;
  create_task
    (add_episode (PStr "Chatbot Response")
       (user_name state +:+ ": " +:+ content_str (content last_message) +:+ bsn
        +:+ "SalesBot: " +:+ content_str (content response))
       "Chatbot" message) ;;
  ret [response].

Definition kind_name (k : msg_kind) : string :=
  match k with
  | SystemMessage => "SystemMessage" | HumanMessage => "HumanMessage"
  | AIMessage => "AIMessage" | ToolMessage => "ToolMessage"
  end.

(** [last_message.tool_calls]: an attribute of [AIMessage] only. *)
Definition get_tool_calls (last_message : Message) : res (list string) :=
  match kind last_message with
  | AIMessage => Ok (tool_calls last_message)
  | k => Raise (Exn AttributeError
                  ("'" +:+ kind_name k +:+ "' object has no attribute 'tool_calls'"))
  end.

(** The routing predicate. *)
Definition should_continue (state : State) : res string :=
  match last_item (messages state) with
  | Raise e => Raise e
  | Ok last_message =>
      match get_tool_calls last_message with
      | Raise e => Raise e
      | Ok [] => Ok "end"
      | Ok _ => Ok "continue"
      end
  end.

(** The [user_state] dict of [main]. *)
Record UserState := {
  us_user_name : string;
  us_user_node_uuid : option string;
  us_manybirds_node_uuid : option string
}.

(** [{'messages': [{'role': 'user', 'content': user_input}], **user_state}] *)
Definition graph_state (user_state : UserState) (user_input : string) : GraphState :=
  {| gs_messages := [("user", user_input)];
     gs_user_name := us_user_name user_state;
     gs_user_node_uuid := us_user_node_uuid user_state;
     gs_manybirds_node_uuid := us_manybirds_node_uuid user_state |}.

(** The body of [for value in event.values()] for one value. *)
Definition show_value (value : option (list Message)) : M unit :=
  match value with
  | None => ret tt
  | Some msgs =>
      last_message <- lift (last_item msgs) ;;
      match kind last_message, content last_message with
      | AIMessage, CStr s => print_end s ""
      | _, _ => ret tt
      end
  end.

Fixpoint for_each {A} (body : A -> M unit) (xs : list A) : M unit :=
  match xs with
  | [] => ret tt
  | x :: rest => body x ;; for_each body rest
  end.

(** [async for event in graph.astream(graph_state, config=config): ...]:
    the stream yields its events and then ends or raises. *)
Definition stream_turn (W : world) (gs : GraphState) (thread_id : string) : M unit :=
  fun tr =>
    let tr' := tr ++ [EvAwait (astream gs thread_id)] in
    let '(events, failure) := w_astream W tr' in
    (for_each (for_each show_value) events ;;
     match failure with
     | None => ret tt
     | Some e => raise e
     end) tr'.

(** One pass of the [while True] body after the [exit] test. *)
Definition turn (W : world) (user_state : UserState) (thread_id : string)
    (user_input : string) : M unit :=
  print_end "Assistant: " "" ;;
  try_except
    (stream_turn W (graph_state user_state user_input) thread_id ;;
     print "")
    is_Exception
    (fun e => print ("An error occurred: " +:+ exn_str e)).

(** [while True: user_input = input("You: "); if ... == 'exit': break; ...] *)
Fixpoint chat_loop (W : world) (user_state : UserState) (thread_id : string)
    (stdin : list string) : M unit :=
  match stdin with
  | [] => x <- input "You: " [] ;; ret tt
  | user_input :: rest =>
      x <- input "You: " (user_input :: rest) ;;
      if String.eqb (lower user_input) "exit" then ret tt
      else
        turn W user_state thread_id user_input ;;
        chat_loop W user_state thread_id rest
  end.

Definition setup_prompt : string :=
  "Do you want to run the initial database setup? (yes/no) "
  +:+ "This will wipe your database. " +:+ bsn.

Definition caught_by_lookup (c : exn_class) : bool :=
  match c with
  | IndexError | AttributeError => true
  | _ => false
  end.

(** The first part of [main]: the identifiers of the user and brand
    nodes, or [None] where [main] executes [return]. *)
Definition resolve_nodes (W : world) (run_setup : string)
  : M (option (option string * option string)) :=
  if String.eqb (lower run_setup) "yes" then
    r <- setup_database W ;;
    let '(user_uuid, manybirds_uuid) := r in
    match user_uuid with
    | None => ret None
    | Some _ => ret (Some (user_uuid, manybirds_uuid))
    end
  else
    try_except
      (user_node_list <- await (_search "jess" EPISODE_MENTIONS) (w_node_search W) ;;
       user_uuid <- lift (nodes_0_uuid user_node_list) ;;
       manybirds_node_list <- await (_search "ManyBirds" EPISODE_MENTIONS) (w_node_search W) ;;
       manybirds_uuid <- lift (nodes_0_uuid manybirds_node_list) ;;
       log INFO "Existing user and brand nodes found." ;;
       ret (Some (Some user_uuid, Some manybirds_uuid)))
      caught_by_lookup
      (fun _ =>
         log ERROR ("Could not find existing user/brand nodes. "
                    +:+ "Please run the setup by answering " +:+ String dquote "yes"
                    +:+ String dquote ".") ;;
         ret None).

Definition main (W : world) (stdin : list string) : M unit :=
  x <- input setup_prompt stdin ;;
  let '(run_setup, stdin) := x in
  ids <- resolve_nodes W run_setup ;;
  match ids with
  | None => ret tt
  | Some (user_uuid, manybirds_uuid) =>
      let thread_id := w_uuid4_hex W in
      let user_state :=
        {| us_user_name := "jess";
           us_user_node_uuid := user_uuid;
           us_manybirds_node_uuid := manybirds_uuid |} in
      print (bsn +:+ "--- ShoeBot is ready! ---") ;;
      print "Type 'exit' to end the conversation." ;;
      print "Hello, how can I help you find shoes today?" ;;
      chat_loop W user_state thread_id stdin ;;
      await close (w_close W) ;;
      print (bsn +:+ "--- Conversation ended ---")
  end.

(** The outcome of a whole run from an empty trace. *)
Definition run (W : world) (stdin : list string) : res unit * trace := main W stdin [].

End Advanced.

(** ** beginner/tutorial.py *)

Module Beginner.
Import Py Eff.
Local Open Scope eff_scope.

Definition json_char (c : ascii) : string :=
  let n := nat_of_ascii c in
  if (n =? 34)%nat || (n =? 92)%nat then String (ascii_of_nat 92) (String c "")
  else if (n =? 10)%nat then bsn
  else if (n =? 13)%nat then String (ascii_of_nat 92) "r"
  else if (n =? 9)%nat then String (ascii_of_nat 92) "t"
  else if (n <? 32)%nat then
    String (ascii_of_nat 92)
      ("u00" +:+ String (hex_digit (n / 16)) (String (hex_digit (n mod 16)) ""))
  else String c "".

Fixpoint json_chars (s : string) : string :=
  match s with
  | EmptyString => EmptyString
  | String c r => json_char c +:+ json_chars r
  end.

Definition json_string (s : string) : string :=
  String dquote (json_chars s +:+ String dquote "").

(** [json.dumps(v)] with the default separators, exact on ASCII text. *)
Fixpoint json_dumps (v : pyval) : string :=
  match v with
  | PNone => "null"
  | PBool true => "true"
  | PBool false => "false"
  | PInt z => str_of_Z z
  | PFloat r => r
  | PStr s => json_string s
  | PList items => "[" +:+ join ", " (map json_dumps items) +:+ "]"
  | PDict items =>
      "{" +:+ join ", " (map (fun kv => let '(k, x) := kv in
                                        json_string k +:+ ": " +:+ json_dumps x) items)
      +:+ "}"
  end.

Record episode := {
  ep_content : pyval;
  ep_type : EpisodeType;
  ep_description : string
}.

Definition episodes : list episode := [
  {| ep_content := PStr ("Kamala Harris is the Attorney General of California. She was previously "
                         +:+ "the district attorney for San Francisco.");
     ep_type := text; ep_description := "podcast transcript" |};
  {| ep_content := PStr "As AG, Harris was in office from January 3, 2011 â€“ January 3, 2017";
     ep_type := text; ep_description := "podcast transcript" |};
  {| ep_content := PDict [("name", PStr "Gavin Newsom"); ("position", PStr "Governor");
                          ("state", PStr "California");
                          ("previous_role", PStr "Lieutenant Governor");
                          ("previous_location", PStr "San Francisco")];
     ep_type := json; ep_description := "podcast metadata" |};
  {| ep_content := PDict [("name", PStr "Gavin Newsom"); ("position", PStr "Governor");
                          ("term_start", PStr "January 7, 2019");
                          ("term_end", PStr "Present")];
     ep_type := json; ep_description := "podcast metadata" |}
].

Definition episode_body (e : episode) : string :=
  match ep_content e with
  | PStr s => s
  | v => json_dumps v
  end.

Fixpoint add_episodes (W : world) (i : nat) (eps : list episode) : M unit :=
  match eps with
  | [] => ret tt
  | e :: rest =>
      let ep_name := "Freakonomics Radio " +:+ str_of_nat i in
      await (add_episode (PStr ep_name) (episode_body e) (ep_description e) (ep_type e))
            (w_add_episode W) ;;
      print ("Added episode: " +:+ ep_name +:+ " (" +:+ EpisodeType_value (ep_type e) +:+ ")") ;;
      add_episodes W (S i) rest
  end.

Definition print_optional (label : string) (v : option string) : M unit :=
  match v with
  | Some s => print (label +:+ s)
  | None => ret tt
  end.

Definition print_result (result : EntityEdge) : M unit :=
  print ("UUID: " +:+ edge_uuid result) ;;
  print ("Fact: " +:+ fact result) ;;
  print_optional "Valid from: " (valid_at result) ;;
  print_optional "Valid until: " (invalid_at result) ;;
  print "---".

Definition print_attribute (kv : string * pyval) : M unit :=
  print ("  " +:+ fst kv +:+ ": " +:+ str (snd kv)).

Definition print_node (node : EntityNode) : M unit :=
  print ("Node UUID: " +:+ uuid node) ;;
  print ("Node Name: " +:+ name node) ;;
  let node_summary :=
    if (100 <? len (summary node))%nat
    then slice_to 100 (summary node) +:+ "..."
    else summary node in
  print ("Content Summary: " +:+ node_summary) ;;
  print ("Node Labels: " +:+ join ", " (labels node)) ;;
  print ("Created At: " +:+ created_at node) ;;
  match attributes node with
  | [] => ret tt
  | attrs => print "Attributes:" ;; Advanced.for_each print_attribute attrs
  end ;;
  print "---".

Definition question : string := "Who was the California Attorney General?".

(** The [try] block of [main]. *)
Definition main_body (W : world) : M unit :=
  add_episodes W 0 episodes ;;
  print (nl +:+ "Searching for: '" +:+ question +:+ "'") ;;
  results <- await (search question None None) (w_search W) ;;
  print (nl +:+ "Search Results:") ;;
  Advanced.for_each print_result results ;;
  match results with
  | first_result :: _ =>
      let center_node_uuid := source_node_uuid first_result in
      print (nl +:+ "Reranking search results based on graph distance:") ;;
      print ("Using center node UUID: " +:+ center_node_uuid) ;;
      reranked_results <- await (search question (Some center_node_uuid) None) (w_search W) ;;
      print (nl +:+ "Reranked Search Results:") ;;
      Advanced.for_each print_result reranked_results
  | [] => print "No results found in the initial search to use as center node."
  end ;;
  print (nl +:+ "Performing node search using _search method with standard recipe NODE_HYBRID_SEARCH_RRF:") ;;
  let node_search_config := {| config_recipe := NODE_HYBRID_SEARCH_RRF; limit := Some 5 |} in
  node_search_results <- await (_search "California Governor" node_search_config)
                               (w_node_search W) ;;
  print (nl +:+ "Node Search Results:") ;;
  match node_search_results with
  | WithoutNodes => raise (Exn AttributeError "'NoneType' object has no attribute 'nodes'")
  | WithNodes ns => Advanced.for_each print_node ns
  end.

(** [main]: the client is built first ([client] is the outcome of the
    [Graphiti(...)] constructor), then comes the body under [try] with
    the connection closed under [finally]. *)
Definition main (W : world) (client : res unit) : M unit :=
  lift client ;;
  try_finally
    (main_body W)
    (await close (w_close W) ;;
     print (nl +:+ "Connection closed")).

(** A run in which the client could be built. *)
Definition run (W : world) : res unit * trace := main W (Ok tt) [].

End Beginner.

(** ** Reasoning about traces *)

Module Trace.
Import Py Eff.

(** [adds P c]: whatever the trace before, [c] only appends events, and
    every appended event satisfies [P]. *)
Definition adds {A} (P : event -> Prop) (c : M A) : Prop :=
  forall tr, exists added, snd (c tr) = tr ++ added /\ Forall P added.

Definition is_print (e : event) : Prop :=
  match e with EvPrint _ _ => True | _ => False end.

Definition is_close_call (e : event) : bool :=
  match e with EvAwait close => true | _ => false end.

(** How many times [client.close()] was called. *)
Definition close_calls (tr : trace) : nat := length (List.filter is_close_call tr).

(** The messages of the [logger.error] calls. *)
Definition error_logs (tr : trace) : list string :=
  omap (fun e => match e with EvLog ERROR msg => Some msg | _ => None end) tr.

(** The lines handed out by [input("You: ")], [None] for end of input. *)
Definition chat_lines (tr : trace) : list (option string) :=
  omap (fun e => match e with
                 | EvInput prompt l => if String.eqb prompt "You: " then Some l else None
                 | _ => None
                 end) tr.

(** The graph states sent to [graph.astream]. *)
Definition streamed (tr : trace) : list GraphState :=
  omap (fun e => match e with EvAwait (astream gs _) => Some gs | _ => None end) tr.

(** The episodes sent through awaited [add_episode] calls. *)
Definition episodes_added (tr : trace) : list call :=
  omap (fun e => match e with
                 | EvAwait (add_episode n b d s) => Some (add_episode n b d s)
                 | _ => None
                 end) tr.

Definition setup_ran (tr : trace) : bool :=
  existsb (fun e => match e with EvAwait clear_data => true | _ => false end) tr.

Definition not_awaited_episode (e : event) : Prop :=
  match e with EvAwait (add_episode _ _ _ _) => False | _ => True end.

(** The exception of [xs[-1]] and [xs[0]] on an empty list. *)
Definition index_error : exn := Exn IndexError "list index out of range".

(** A stream value whose [messages] list is empty: [value['messages'][-1]]
    raises on it. *)
Definition empty_messages (value : option (list Message)) : Prop := value = Some [].

(** [body] prints and returns, or prints and raises [index_error] on an
    input that is [bad]. *)
Definition prints_or_fails {A} (bad : A -> Prop) (body : A -> M unit) : Prop :=
  forall x tr, exists shown,
    Forall is_print shown
    /\ (body x tr = (Ok tt, tr ++ shown)
        \/ (bad x /\ body x tr = (Raise index_error, tr ++ shown))).

(** [user_input.lower() == 'exit'] for a line handed out by [input],
    which is [None] at the end of the input. *)
Definition exit_typed (l : option string) : bool :=
  match l with
  | Some x => String.eqb (lower x) "exit"
  | None => false
  end.

(** The chat messages that a list of prompted lines gives rise to: one
    user message per line that is not the sentinel. *)
Fixpoint messages_of_lines (ls : list (option string)) : list (list (string * string)) :=
  match ls with
  | [] => []
  | Some x :: rest =>
      if String.eqb (lower x) "exit" then messages_of_lines rest
      else [("user", x)] :: messages_of_lines rest
  | None :: rest => messages_of_lines rest
  end.

Definition not_clear_data (e : event) : Prop :=
  match e with EvAwait clear_data => False | _ => True end.

(** What the prompted lines [chat_lines added] and the result [r] of
    the chat loop have to do with each other. *)
Definition sentinel_ends_loop (r : res unit) (added : trace) : Prop :=
  chat_lines added <> []
  /\ (r = Ok tt <->
      exists line, last (chat_lines added) = Some (Some line) /\ lower line = "exit")
  /\ (forall pre l post,
        chat_lines added = pre ++ l :: post -> exit_typed l = true -> post = [])
  /\ map gs_messages (streamed added) = messages_of_lines (chat_lines added).

(** The events that [setup_database] and the lookup of existing nodes
    can produce. *)
Definition setup_event (e : event) : Prop :=
  match e with
  | EvLog _ _ => True
  | EvAwait clear_data | EvAwait build_indices_and_constraints
  | EvAwait (add_episode _ _ _ _) | EvAwait (_search _ _) => True
  | _ => False
  end.

(** A stream call carries a user node and a brand node identifier, both
    different from [None]. *)
Definition resolved_stream (e : event) : Prop :=
  match e with
  | EvAwait (astream gs _) =>
      is_Some (gs_user_node_uuid gs) /\ is_Some (gs_manybirds_node_uuid gs)
  | _ => True
  end.

(** The trace of [main] up to the call that clears the graph, when the
    answer to the setup prompt was [l]. *)
Definition setup_prefix (l : string) : trace :=
  [EvInput Advanced.setup_prompt (Some l);
   EvLog INFO "Setting up the database. This may take a moment...";
   EvLog WARNING "This will clear all existing data in the graph!";
   EvAwait clear_data].

(** The product file is missing on the setup path (and the graph could
    be cleared and its schema built, which comes first). *)
Definition missing_sample_data (W : world) (l : string) : Prop :=
  lower l = "yes"
  /\ w_products_file W = None
  /\ w_clear_data W (setup_prefix l) = Ok tt
  /\ w_build_indices W (setup_prefix l ++ [EvAwait build_indices_and_constraints]) = Ok tt.

(** [(await client._search(...)).nodes[0].uuid] for the answer [r] of
    the search. *)
Definition lookup (r : res SearchResults) : res string :=
  match r with
  | Ok node_list => Advanced.nodes_0_uuid node_list
  | Raise e => Raise e
  end.

Definition first_lookup (l : string) : trace :=
  [EvInput Advanced.setup_prompt (Some l);
   EvAwait (_search "jess" Advanced.EPISODE_MENTIONS)].

Definition second_lookup (l : string) : trace :=
  first_lookup l ++ [EvAwait (_search "ManyBirds" Advanced.EPISODE_MENTIONS)].

(** On the path without setup, the lookup of the user node or of the
    brand node fails with an [IndexError] or an [AttributeError]. *)
Definition unresolved_existing_nodes (W : world) (l : string) : Prop :=
  lower l <> "yes"
  /\ exists e,
       Advanced.caught_by_lookup (exn_cls e) = true
       /\ (lookup (w_node_search W (first_lookup l)) = Raise e
           \/ ((exists u, lookup (w_node_search W (first_lookup l)) = Ok u)
               /\ lookup (w_node_search W (second_lookup l)) = Raise e)).

(** The text that [main] logs when the existing nodes are not found. *)
Definition nodes_not_found : string :=
  "Could not find existing user/brand nodes. "
  +:+ "Please run the setup by answering " +:+ String dquote "yes" +:+ String dquote ".".

(** [main] logged an error as the last thing it did and returned,
    without prompting for a chat line, streaming a turn or adding an
    episode. *)
Definition logged_and_returned (r : res unit * trace) : Prop :=
  fst r = Ok tt
  /\ (exists msg, last (snd r) = Some (EvLog ERROR msg))
  /\ chat_lines (snd r) = []
  /\ streamed (snd r) = []
  /\ episodes_added (snd r) = [].

(** In the words of the specification: [kept] is the product's
    key-value pairs with the [images] key removed and every other pair
    unchanged, in the same order. *)
Definition images_removed (items kept : list (string * pyval)) : Prop :=
  sublist kept items
  /\ (forall k v, In (k, v) kept <-> In (k, v) items /\ k <> "images").

(** An awaited [add_episode] with source [json] is the episode of a
    product record of the loaded file: its body renders the record
    without [images]. *)
Definition product_episode_event (W : world) (e : event) : Prop :=
  match e with
  | EvAwait (add_episode n body d json) =>
      exists root products plist i items kept,
        w_products_file W = Some (Ok root)
        /\ Advanced.subscript_products root = Ok products
        /\ Advanced.iterate products = Ok plist
        /\ plist !! i = Some (PDict items)
        /\ images_removed items kept
        /\ dict_mem "images" kept = false
        /\ kept = Advanced.without_images items
        /\ body = str (PDict kept)
        /\ n = dict_get "title" items (PStr ("Product " +:+ str_of_nat i))
        /\ d = "ManyBirds products"
  | _ => True
  end.

End Trace.

(** ** Concrete worlds *)

Module Samples.
Import Py Eff.

(** Replace the answers of [add_episode]. *)
Definition with_add_episode (f : trace -> res unit) (W : world) : world :=
  {| w_clear_data := w_clear_data W;
     w_build_indices := w_build_indices W;
     w_add_episode := f;
     w_search := w_search W;
     w_node_search := w_node_search W;
     w_llm := w_llm W;
     w_astream := w_astream W;
     w_close := w_close W;
     w_json_file_path := w_json_file_path W;
     w_products_file := w_products_file W;
     w_uuid4_hex := w_uuid4_hex W |}.

Definition reply (s : string) : Message :=
  {| kind := AIMessage; content := CStr s; tool_calls := [] |}.

Definition edge (f : string) : EntityEdge :=
  {| edge_uuid := "e-" +:+ f; fact := f; source_node_uuid := "n-0";
     valid_at := None; invalid_at := None |}.

Definition node (u : string) : EntityNode :=
  {| uuid := u; name := "jess"; summary := ""; labels := ["Entity"];
     created_at := "2025-01-01"; attributes := [] |}.

(** An empty graph, no product file, every call succeeds. *)
Definition empty_graph : world :=
  {| w_clear_data := fun _ => Ok tt;
     w_build_indices := fun _ => Ok tt;
     w_add_episode := fun _ => Ok tt;
     w_search := fun _ => Ok [];
     w_node_search := fun _ => Ok (WithNodes []);
     w_llm := fun _ => Ok (reply "Hello!");
     w_astream := fun _ => ([], None);
     w_close := fun _ => Ok tt;
     w_json_file_path := "/repo/examples/data/manybirds_products.json";
     w_products_file := None;
     w_uuid4_hex := "0123456789abcdef0123456789abcdef" |}.

Definition catalog : pyval :=
  PDict [("products",
          PList [PDict [("title", PStr "Wool Runner");
                        ("images", PList [PStr "a.png"; PStr "b.png"]);
                        ("price", PInt 98)];
                 PDict [("images", PList []); ("vendor", PStr "ManyBirds")]])].

(** The product file is there, the node lookups find nothing. *)
Definition unresolved_after_setup : world :=
  {| w_clear_data := fun _ => Ok tt;
     w_build_indices := fun _ => Ok tt;
     w_add_episode := fun _ => Ok tt;
     w_search := fun _ => Ok [];
     w_node_search := fun _ => Ok (WithNodes []);
     w_llm := fun _ => Ok (reply "Hello!");
     w_astream := fun _ => ([], None);
     w_close := fun _ => Ok tt;
     w_json_file_path := "/repo/examples/data/manybirds_products.json";
     w_products_file := Some (Ok catalog);
     w_uuid4_hex := "0123456789abcdef0123456789abcdef" |}.

(** A populated graph: lookups resolve, searches return two facts, and
    every stream fails with a connection error. *)
Definition failing_stream : world :=
  {| w_clear_data := fun _ => Ok tt;
     w_build_indices := fun _ => Ok tt;
     w_add_episode := fun _ => Raise (Exn RuntimeError "write failed");
     w_search := fun _ => Ok [edge "a"; edge "b"];
     w_node_search := fun _ => Ok (WithNodes [node "u-1"]);
     w_llm := fun _ => Ok (reply "Hello!");
     w_astream := fun _ => ([[Some [reply "Hi"]]], Some (Exn RuntimeError "connection lost"));
     w_close := fun _ => Ok tt;
     w_json_file_path := "/repo/examples/data/manybirds_products.json";
     w_products_file := Some (Ok catalog);
     w_uuid4_hex := "0123456789abcdef0123456789abcdef" |}.

Definition sample_state : State :=
  {| messages := [{| kind := HumanMessage; content := CStr "size 9?"; tool_calls := [] |}];
     user_name := "jess";
     user_node_uuid := Some "u-1";
     manybirds_node_uuid := Some "u-1" |}.

End Samples.

(** ** Logging configuration of advanced/tutorial.py *)

Module Logging.
Import Py Eff.

(** Numeric levels of the [logging] module. *)
Definition NOTSET : nat := 0.
Definition levelno (l : level) : nat :=
  match l with INFO => 20 | WARNING => 30 | ERROR => 40 end.
Definition levelname (l : level) : string :=
  match l with INFO => "INFO" | WARNING => "WARNING" | ERROR => "ERROR" end.

Record Handler := { handler_level : nat }.

Record Logger := {
  logger_name : string;
  logger_level : nat;
  logger_handlers : list Handler
}.

(** The root logger and the logger [logging.getLogger(__name__)], whose
    parent is the root. *)
Record Loggers := { root_logger : Logger; module_logger : Logger }.

(** The state at import time of a script run as [__main__]: the root at
    WARNING without handlers, the module logger not yet configured. *)
Definition pristine : Loggers :=
  {| root_logger := {| logger_name := "root"; logger_level := 30; logger_handlers := [] |};
     module_logger := {| logger_name := "__main__"; logger_level := NOTSET;
                         logger_handlers := [] |} |}.

(** [setup_logging]: root level ERROR, one console handler at INFO on
    the root; the logger returned is the module logger. *)
Definition setup_logging (lg : Loggers) : Loggers :=
  {| root_logger :=
       {| logger_name := logger_name (root_logger lg);
          logger_level := levelno ERROR;
          logger_handlers :=
            logger_handlers (root_logger lg) ++ [{| handler_level := levelno INFO |}] |};
     module_logger := module_logger lg |}.

(** [logger.getEffectiveLevel()] for a logger whose parent is the
    root: its own level, or the root's when it has none. *)
Definition getEffectiveLevel (lg : Loggers) (lgr : Logger) : nat :=
  if (logger_level lgr =? NOTSET)%nat
  then logger_level (root_logger lg)
  else logger_level lgr.

Definition isEnabledFor (lg : Loggers) (lgr : Logger) (levelno : nat) : bool :=
  (getEffectiveLevel lg lgr <=? levelno)%nat.

(** ['%(name)s - %(levelname)s - %(message)s'] and the terminator of
    the stream handler. *)
Definition format (lgr : Logger) (levelname msg : string) : string :=
  logger_name lgr +:+ " - " +:+ levelname +:+ " - " +:+ msg +:+ nl.

(** The lines that the handlers write for one record of [lgr]: the
    handlers of the logger itself, then those of the root. *)
Definition callHandlers (lg : Loggers) (lgr : Logger)
    (levelno : nat) (levelname msg : string) : list string :=
  map (fun _ => format lgr levelname msg)
      (List.filter (fun h => (handler_level h <=? levelno)%nat)
         (logger_handlers lgr ++ logger_handlers (root_logger lg))).




End Logging.

(** ** The graph of advanced/tutorial.py *)

Module Graph.
Import Py Eff.

Inductive node := START | agent | tools | END.

(** [add_edge(START, 'agent')] and [add_edge('tools', 'agent')] *)
Definition edges : list (node * node) := [(START, agent); (tools, agent)].

(** The mapping given to [add_conditional_edges] for ['agent']. *)
Definition conditional_edges : list (string * node) :=
  [("continue", tools); ("end", END)].

Fixpoint path_map (label : string) (m : list (string * node)) : option node :=
  match m with
  | [] => None
  | (k, n) :: rest => if String.eqb k label then Some n else path_map label rest
  end.

(** Where the graph goes after the agent node: the label of
    [should_continue] looked up in the mapping. *)
Definition after_agent (state : State) : res (option node) :=
  match Advanced.should_continue state with
  | Ok label => Ok (path_map label conditional_edges)
  | Raise e => Raise e
  end.

End Graph.

(** ** Views of traces and of the data *)

Module Views.
Import Py Eff.

(** The episodes that the ingestion loop is going to send, as long as
    the records are dicts. *)
Fixpoint planned_episodes (i : nat) (products : list pyval) : list call :=
  match products with
  | PDict items :: rest => Advanced.product_episode i items :: planned_episodes (S i) rest
  | _ => []
  end.

Definition user_episode : call :=
  add_episode (PStr "User Creation") "jess is interested in buying a pair of shoes"
    "SalesBot" text.

(** What [show_value] prints for one value of a stream event. *)
Definition value_text (value : option (list Message)) : list string :=
  match value with
  | Some msgs =>
      match last msgs with
      | Some m =>
          match kind m, content m with
          | AIMessage, CStr s => [s]
          | _, _ => []
          end
      | None => []
      end
  | None => []
  end.

Definition stream_text (events : list StreamEvent) : list string :=
  flat_map (flat_map value_text) events.

(** The coroutines handed to [asyncio.create_task]. *)
Definition tasks_created (tr : trace) : list call :=
  omap (fun e => match e with EvCreateTask c => Some c | _ => None end) tr.

(** The arguments of the awaited [search] calls. *)
Definition searches (tr : trace) : list (string * option string * option nat) :=
  omap (fun e => match e with
                 | EvAwait (search q c n) => Some (q, c, n)
                 | _ => None
                 end) tr.

Definition not_search (e : event) : Prop :=
  match e with EvAwait (search _ _ _) => False | _ => True end.

(** The summary line of [print_node]. *)
Definition node_summary (summary : string) : string :=
  if (100 <? len summary)%nat
  then slice_to 100 summary +:+ "..."
  else summary.

(** The system message that [chatbot] puts in front of the history. *)
Definition system_message (facts_string : option string) : Message :=
  {| kind := SystemMessage; content := CStr (Advanced.system_prompt facts_string);
     tool_calls := [] |}.

(** The query that [chatbot] sends to the graph for the last message. *)
Definition graphiti_query (state : State) (last_message : Message) : string :=
  (if isinstance_AIMessage last_message then "SalesBot" else user_name state)
  +:+ ": " +:+ content_str (content last_message).

(** The episode with which [chatbot] persists a turn. *)
Definition turn_episode (state : State) (last_message response : Message) : call :=
  add_episode (PStr "Chatbot Response")
    (user_name state +:+ ": " +:+ content_str (content last_message) +:+ bsn
     +:+ "SalesBot: " +:+ content_str (content response))
    "Chatbot" message.

(** A stream that answers every turn and never fails. *)
Definition talkative : world :=
  {| w_clear_data := fun _ => Ok tt;
     w_build_indices := fun _ => Ok tt;
     w_add_episode := fun _ => Ok tt;
     w_search := fun _ => Ok [];
     w_node_search := fun _ =>
       Ok (WithNodes [{| uuid := "n-7"; name := "jess"; summary := "";
                         labels := []; created_at := ""; attributes := [] |}]);
     w_llm := fun _ => Ok {| kind := AIMessage; content := CStr "Size?"; tool_calls := [] |};
     w_astream := fun _ =>
       ([[Some [{| kind := HumanMessage; content := CStr "hi"; tool_calls := [] |};
                {| kind := AIMessage; content := CStr "Which size?"; tool_calls := [] |}];
          None];
         [Some [{| kind := ToolMessage; content := CStr "- a"; tool_calls := [] |}]]],
        None);
     w_close := fun _ => Ok tt;
     w_json_file_path := "/repo/examples/data/manybirds_products.json";
     w_products_file := Some (Ok (PDict [("products",
                                          PList [PDict [("title", PStr "Tree Dasher")]])]));
     w_uuid4_hex := "feedfacefeedfacefeedfacefeedface" |}.

(** The node search fails with a connection error. *)
Definition unreachable : world :=
  {| w_clear_data := fun _ => Raise (Exn RuntimeError "connection refused");
     w_build_indices := fun _ => Ok tt;
     w_add_episode := fun _ => Ok tt;
     w_search := fun _ => Raise (Exn RuntimeError "connection refused");
     w_node_search := fun _ => Raise (Exn RuntimeError "connection refused");
     w_llm := fun _ => Ok {| kind := AIMessage; content := CStr "Size?"; tool_calls := [] |};
     w_astream := fun _ => ([], None);
     w_close := fun _ => Ok tt;
     w_json_file_path := "/repo/examples/data/manybirds_products.json";
     w_products_file := None;
     w_uuid4_hex := "feedfacefeedfacefeedfacefeedface" |}.

End Views.

(** * Facts *)

Example lower_EXIT : Py.lower "EXIT" = "exit".
Proof. reflexivity. Qed.

Example repr_dict_sample :
  Py.repr (Py.PDict [("title", Py.PStr "Wool Runner"); ("price", Py.PInt 98);
                     ("tags", Py.PList [Py.PStr "wool"; Py.PNone])])
  = "{'title': 'Wool Runner', 'price': 98, 'tags': ['wool', None]}".
Proof. reflexivity. Qed.

Module StringFacts.
Import Py.

Lemma append_cons (x : ascii) (a b : string) :
  String x a +:+ b = String x (a +:+ b).
Proof. reflexivity. Qed.

Lemma append_assoc (a b c : string) : (a +:+ b) +:+ c = a +:+ (b +:+ c).
Proof.
  induction a as [|x a IH]; [reflexivity|].
  rewrite !append_cons. f_equal. exact IH.
Qed.

Lemma append_nil_r (a : string) : a +:+ "" = a.
Proof.
  induction a as [|x a IH]; [reflexivity|].
  rewrite append_cons. f_equal. exact IH.
Qed.

End StringFacts.

Module TraceFacts.
Import Py Eff Trace.

Section Adds.
Context (P : event -> Prop).

Lemma adds_ret {A} (a : A) : adds P (ret a).
Proof. intros tr. exists []. rewrite app_nil_r. auto. Qed.

Lemma adds_raise {A} (e : exn) : adds P (@raise A e).
Proof. intros tr. exists []. rewrite app_nil_r. auto. Qed.

Lemma adds_lift {A} (r : res A) : adds P (lift r).
Proof. intros tr. exists []. rewrite app_nil_r. auto. Qed.

Lemma adds_emit (e : event) : P e -> adds P (emit e).
Proof. intros H tr. exists [e]. auto. Qed.

Lemma adds_await {A} (c : call) (oracle : trace -> res A) :
  P (EvAwait c) -> adds P (await c oracle).
Proof. intros H tr. exists [EvAwait c]. auto. Qed.

Lemma adds_input (prompt : string) (stdin : list string) :
  (forall l, P (EvInput prompt l)) -> adds P (input prompt stdin).
Proof.
  intros H tr. destruct stdin as [|line rest]; simpl.
  - exists [EvInput prompt None]. auto.
  - exists [EvInput prompt (Some line)]. auto.
Qed.

Lemma adds_bind {A B} (c : M A) (k : A -> M B) :
  adds P c -> (forall a, adds P (k a)) -> adds P (bind c k).
Proof.
  intros Hc Hk tr. unfold bind.
  destruct (Hc tr) as (a1 & E1 & F1).
  destruct (c tr) as [[a|e] tr1]; simpl in E1; subst tr1.
  - destruct (Hk a (tr ++ a1)) as (a2 & E2 & F2).
    exists (a1 ++ a2). rewrite E2, app_assoc. split; [reflexivity|].
    apply Forall_app; auto.
  - exists a1. auto.
Qed.

Lemma adds_try_except {A} (body : M A) catches (handler : exn -> M A) :
  adds P body -> (forall e, adds P (handler e)) -> adds P (try_except body catches handler).
Proof.
  intros Hb Hh tr. unfold try_except.
  destruct (Hb tr) as (a1 & E1 & F1).
  destruct (body tr) as [[a|e] tr1]; simpl in E1; subst tr1.
  - exists a1. auto.
  - destruct (catches (exn_cls e)).
    + destruct (Hh e (tr ++ a1)) as (a2 & E2 & F2).
      exists (a1 ++ a2). rewrite E2, app_assoc. split; [reflexivity|].
      apply Forall_app; auto.
    + exists a1. auto.
Qed.

Lemma adds_for_each {A} (body : A -> M unit) (xs : list A) :
  (forall x, adds P (body x)) -> adds P (Advanced.for_each body xs).
Proof.
  intros Hb. induction xs as [|x rest IH]; simpl.
  - apply adds_ret.
  - apply adds_bind; auto.
Qed.

End Adds.

Lemma adds_weaken {A} (P Q : event -> Prop) (c : M A) :
  (forall e, P e -> Q e) -> adds P c -> adds Q c.
Proof.
  intros HPQ Hc tr. destruct (Hc tr) as (added & E & F).
  exists added. split; [exact E|]. eapply Forall_impl; eauto.
Qed.

Lemma close_calls_app tr1 tr2 :
  close_calls (tr1 ++ tr2) = (close_calls tr1 + close_calls tr2)%nat.
Proof. unfold close_calls. rewrite List.filter_app, length_app. reflexivity. Qed.

Lemma close_calls_none added :
  Forall (fun e => is_close_call e = false) added -> close_calls added = 0%nat.
Proof.
  unfold close_calls. induction 1 as [|e rest He _ IH]; simpl; [reflexivity|].
  rewrite He. exact IH.
Qed.

Lemma adds_try_finally {A} (P : event -> Prop) (body : M A) (cleanup : M unit) :
  adds P body -> adds P cleanup -> adds P (try_finally body cleanup).
Proof.
  intros Hb Hc tr. unfold try_finally.
  destruct (Hb tr) as (a1 & E1 & F1).
  destruct (body tr) as [r tr1]; simpl in E1; subst tr1.
  destruct (Hc (tr ++ a1)) as (a2 & E2 & F2).
  destruct (cleanup (tr ++ a1)) as [[u|e] tr2]; simpl in E2; subst tr2;
    exists (a1 ++ a2); rewrite app_assoc; (split; [reflexivity|]);
    apply Forall_app; auto.
Qed.

(** One step of a syntax-directed proof of [adds P c]. *)
Ltac adds_step :=
  lazymatch goal with
  | |- adds _ (bind _ _) => apply adds_bind; [|intros]
  | |- adds _ (ret _) => apply adds_ret
  | |- adds _ (raise _) => apply adds_raise
  | |- adds _ (lift _) => apply adds_lift
  | |- adds _ (emit _) => apply adds_emit
  | |- adds _ (print _) => apply adds_emit
  | |- adds _ (print_end _ _) => apply adds_emit
  | |- adds _ (log _ _) => apply adds_emit
  | |- adds _ (create_task _) => apply adds_emit
  | |- adds _ (await _ _) => apply adds_await
  | |- adds _ (input _ _) => apply adds_input; intros
  | |- adds _ (try_except _ _ _) => apply adds_try_except; [|intros]
  | |- adds _ (try_finally _ _) => apply adds_try_finally
  | |- adds _ (Advanced.for_each _ _) => apply adds_for_each; intros
  | |- adds _ (match ?x with _ => _ end) => destruct x
  end.

Ltac adds_auto := repeat adds_step; try exact I; try reflexivity.

End TraceFacts.

(** ** Formatting of search results *)

Module FactsString.
Import Py Eff Advanced Samples.

(** Each fact carries its own bullet; the bulleted pieces are joined by
    the two characters backslash and n. *)
Lemma edges_to_facts_string_bullets (e : EntityEdge) (es : list EntityEdge) :
  edges_to_facts_string (e :: es)
  = join bsn (map (fun x => "- " +:+ fact x) (e :: es)).
Proof.
  unfold edges_to_facts_string.
  revert e. induction es as [|e' es IH]; intros e.
  - reflexivity.
  - specialize (IH e'). cbn [map join] in *.
    destruct es as [|e'' es].
    + cbn. reflexivity.
    + cbn [map] in *. rewrite <- IH. cbn. reflexivity.
Qed.

(** C1, at the input [two facts a and b]: the result is the single line
    [- a\n- b] with a backslash and the letter n between the facts, not
    the two lines that a newline separator would give. *)
Theorem C1_two_facts_on_one_line :
  edges_to_facts_string [edge "a"; edge "b"] = "- a\n- b"
  /\ edges_to_facts_string [edge "a"; edge "b"] <> "- a" +:+ nl +:+ "- b"
  /\ contains_char (ascii_of_nat 10) (edges_to_facts_string [edge "a"; edge "b"]) = false.
Proof. repeat split; [discriminate]. Qed.

(** C9: for an empty list of edges [edges_to_facts_string] is the lone
    bullet prefix ['- '], and when the search of [get_shoe_data] returns
    no edge the tool returns that string. *)
Theorem C9_empty_result_is_lone_bullet
    (W : world) (query : string) (state : State) (tr : trace) :
  w_search W (tr ++ [EvLog INFO ("Tool `get_shoe_data` called with query: " +:+ query);
                     EvAwait (search query (manybirds_node_uuid state) (Some 10))]) = Ok [] ->
  edges_to_facts_string [] = "- "
  /\ String.length (edges_to_facts_string []) = 2%nat
  /\ fst (get_shoe_data W query state tr) = Ok "- ".
Proof.
  intros H. repeat split.
  unfold get_shoe_data, bind, log, emit, await, ret. cbn.
  rewrite <- app_assoc. cbn. rewrite H. reflexivity.
Qed.

Lemma C9_witness :
  edges_to_facts_string [] = "- "
  /\ String.length (edges_to_facts_string []) = 2%nat
  /\ fst (get_shoe_data empty_graph "trail shoes" sample_state []) = Ok "- ".
Proof. apply (C9_empty_result_is_lone_bullet empty_graph "trail shoes" sample_state []). reflexivity. Defined.

End FactsString.

(** ** Connection settings *)

Module ConfigFacts.
Import Py Eff Config.

(** The module-level check of the beginner script fails exactly when
    one of the three settings is the empty string. *)
Lemma beginner_client_raises_iff (environ : gmap string string) :
  (exists e, beginner_client environ = Raise e)
  <-> (neo4j_uri environ = "" \/ neo4j_user environ = "" \/ neo4j_password environ = "").
Proof.
  unfold beginner_client, py_not_str.
  destruct (String.eqb_spec (neo4j_uri environ) "") as [-> | Hu]; cbn.
  { split; eauto. }
  destruct (String.eqb_spec (neo4j_user environ) "") as [-> | Hn]; cbn.
  { split; eauto. }
  destruct (String.eqb_spec (neo4j_password environ) "") as [-> | Hp]; cbn.
  { split; eauto. }
  split.
  - intros [e He]. discriminate.
  - intros [H | [H | H]]; contradiction.
Qed.

(** C6: the client is built from the values of NEO4J_URI, NEO4J_USER
    and NEO4J_PASSWORD where they are set and from the defaults
    [bolt://localhost:7687], [neo4j], [password] where they are not;
    the beginner script builds the same client whenever its check
    passes, and with all three unset the check passes. *)
Theorem C6_connection_settings (environ : gmap string string) :
  (forall v, environ !! "NEO4J_URI" = Some v -> g_uri (advanced_client environ) = v)
  /\ (forall v, environ !! "NEO4J_USER" = Some v -> g_user (advanced_client environ) = v)
  /\ (forall v, environ !! "NEO4J_PASSWORD" = Some v -> g_password (advanced_client environ) = v)
  /\ (environ !! "NEO4J_URI" = None -> g_uri (advanced_client environ) = "bolt://localhost:7687")
  /\ (environ !! "NEO4J_USER" = None -> g_user (advanced_client environ) = "neo4j")
  /\ (environ !! "NEO4J_PASSWORD" = None -> g_password (advanced_client environ) = "password")
  /\ (forall g, beginner_client environ = Ok g -> g = advanced_client environ)
  /\ (environ !! "NEO4J_URI" = None -> environ !! "NEO4J_USER" = None ->
      environ !! "NEO4J_PASSWORD" = None ->
      beginner_client environ
      = Ok {| g_uri := "bolt://localhost:7687"; g_user := "neo4j"; g_password := "password" |}).
Proof.
  unfold advanced_client, beginner_client, neo4j_uri, neo4j_user, neo4j_password,
    environ_get; cbn [g_uri g_user g_password].
  repeat split.
  - intros v ->. reflexivity.
  - intros v ->. reflexivity.
  - intros v ->. reflexivity.
  - intros ->. reflexivity.
  - intros ->. reflexivity.
  - intros ->. reflexivity.
  - intros g H.
    destruct (py_not_str _ || py_not_str _ || py_not_str _); [discriminate|].
    now inversion H.
  - intros -> -> ->. reflexivity.
Qed.

Lemma C6_witness :
  g_user (advanced_client {[ "NEO4J_USER" := "alice" ]}) = "alice"
  /\ g_uri (advanced_client {[ "NEO4J_USER" := "alice" ]}) = "bolt://localhost:7687"
  /\ beginner_client ∅
     = Ok {| g_uri := "bolt://localhost:7687"; g_user := "neo4j"; g_password := "password" |}.
Proof.
  split; [|split].
  - apply (proj1 (proj2 (C6_connection_settings {[ "NEO4J_USER" := "alice" ]}))).
    reflexivity.
  - apply (proj1 (proj2 (proj2 (proj2 (C6_connection_settings {[ "NEO4J_USER" := "alice" ]}))))).
    reflexivity.
  - apply (proj2 (proj2 (proj2 (proj2 (proj2 (proj2 (proj2 (C6_connection_settings ∅)))))))).
    all: reflexivity.
Defined.

End ConfigFacts.

(** ** Closing the connection *)

Module CloseFacts.
Import Py Eff Trace TraceFacts Samples.

Lemma beginner_body_never_closes (W : world) :
  adds (fun e => is_close_call e = false) (Beginner.main_body W).
Proof.
  assert (Hadd : forall i eps,
             adds (fun e => is_close_call e = false) (Beginner.add_episodes W i eps)).
  { intros i eps. revert i. induction eps as [|e rest IH]; intros i; simpl.
    - apply adds_ret.
    - adds_auto. apply IH. }
  unfold Beginner.main_body. adds_step; [apply Hadd|].
  unfold Beginner.print_result, Beginner.print_node, Beginner.print_optional,
    Beginner.print_attribute.
  adds_auto.
Qed.

Lemma beginner_run_unfold (W : world) :
  Beginner.run W
  = try_finally (Beginner.main_body W)
      (bind (await close (w_close W)) (fun _ => print (nl +:+ "Connection closed"))) [].
Proof. reflexivity. Qed.

(** Once its client is built, the beginner script calls [close] exactly
    once in every world, whatever the steps under [try] do. *)
Lemma beginner_closes_once (W : world) :
  close_calls (snd (Beginner.run W)) = 1%nat.
Proof.
  rewrite beginner_run_unfold. unfold try_finally.
  destruct (beginner_body_never_closes W []) as (added & E & F).
  destruct (Beginner.main_body W []) as [r tr1]. simpl in E. subst tr1.
  apply close_calls_none in F.
  unfold bind, await, print, emit. cbn [app].
  destruct (w_close W _) as [u|e]; cbn [snd];
    rewrite ?close_calls_app, F; reflexivity.
Qed.

(** C2, at the inputs [no] with no stored nodes and [yes] with no
    product file: the advanced script returns from [main] without a
    single call of [close], where the claim wants exactly one. *)
Theorem C2_advanced_early_return_skips_close :
  fst (Advanced.run empty_graph ["no"]) = Ok tt
  /\ close_calls (snd (Advanced.run empty_graph ["no"])) = 0%nat
  /\ fst (Advanced.run empty_graph ["yes"]) = Ok tt
  /\ close_calls (snd (Advanced.run empty_graph ["yes"])) = 0%nat.
Proof. repeat split. Qed.

(** An exception that leaves [main] skips [close] as well. *)
Example advanced_exception_skips_close :
  fst (Advanced.run unresolved_after_setup ["yes"])
  = Raise (Exn IndexError "list index out of range")
  /\ close_calls (snd (Advanced.run unresolved_after_setup ["yes"])) = 0%nat.
Proof. repeat split. Qed.

(** On the path through the chat loop [close] is called once. *)
Example advanced_exit_closes_once :
  fst (Advanced.run failing_stream ["no"; "hello"; "Exit"]) = Ok tt
  /\ close_calls (snd (Advanced.run failing_stream ["no"; "hello"; "Exit"])) = 1%nat.
Proof. repeat split. Qed.

End CloseFacts.

(** ** Running computations symbolically *)

Module RunFacts.
Import Py Eff Trace TraceFacts.

Lemma bind_ok_inv {A B} (c : M A) (k : A -> M B) tr b tr' :
  bind c k tr = (Ok b, tr') ->
  exists a tr1, c tr = (Ok a, tr1) /\ k a tr1 = (Ok b, tr').
Proof.
  unfold bind. destruct (c tr) as [[a|e] tr1]; intros H.
  - exists a, tr1. auto.
  - discriminate.
Qed.

Lemma bind_run_ok {A B} (c : M A) (k : A -> M B) tr a tr1 :
  c tr = (Ok a, tr1) -> bind c k tr = k a tr1.
Proof. unfold bind. intros ->. reflexivity. Qed.

Lemma bind_run_raise {A B} (c : M A) (k : A -> M B) tr e tr1 :
  c tr = (Raise e, tr1) -> bind c k tr = (Raise e, tr1).
Proof. unfold bind. intros ->. reflexivity. Qed.

(** The continuation only has to behave on the values that [c] can
    really return. *)
Lemma adds_bind_ok {A B} (P : event -> Prop) (c : M A) (k : A -> M B) :
  adds P c ->
  (forall a, (exists tr tr', c tr = (Ok a, tr')) -> adds P (k a)) ->
  adds P (bind c k).
Proof.
  intros Hc Hk tr. unfold bind.
  destruct (Hc tr) as (a1 & E1 & F1).
  destruct (c tr) as [[a|e] tr1] eqn:Ec; simpl in E1; subst tr1.
  - destruct (Hk a (ex_intro _ tr (ex_intro _ _ Ec)) (tr ++ a1)) as (a2 & E2 & F2).
    exists (a1 ++ a2). rewrite E2, app_assoc. split; [reflexivity|].
    apply Forall_app; auto.
  - exists a1. auto.
Qed.

Lemma omap_none {A} (f : event -> option A) (added : trace) :
  Forall (fun e => f e = None) added -> omap f added = [].
Proof.
  induction 1 as [|e rest He _ IH]; [reflexivity|].
  cbn. rewrite He. exact IH.
Qed.

Lemma adds_True {A} (P : event -> Prop) (c : M A) : adds P c -> adds (fun _ => True) c.
Proof. apply adds_weaken. auto. Qed.

End RunFacts.

(** ** The chatbot callback *)

Module ChatbotFacts.
Import Py Eff Trace TraceFacts RunFacts Advanced Samples.

Lemma chatbot_awaits_no_episode (W : world) (state : State) :
  adds not_awaited_episode (chatbot W state).
Proof. unfold chatbot. adds_auto. Qed.

Lemma chat_loop_ignores_add_episode W f us th stdin :
  forall t, chat_loop (with_add_episode f W) us th stdin t = chat_loop W us th stdin t.
Proof.
  induction stdin as [|line rest IH]; intros t; [reflexivity|].
  cbn [chat_loop]. unfold bind at 1 3. cbn [input].
  destruct (String.eqb _ _); [reflexivity|].
  unfold bind. change (turn (with_add_episode f W)) with (turn W).
  destruct (turn W us th line _) as [[u|e] t']; [apply IH | reflexivity].
Qed.

(** C5: [chatbot] hands the [add_episode] coroutine to [create_task]
    and returns without awaiting it.
    - The outcome of the write is observed nowhere: whatever the store
      answers to [add_episode], [chatbot] returns the same value and
      makes the same logger calls and external calls, and so do the
      tool callback and the chat loop of [main].
    - [chatbot] awaits no [add_episode].
    - With a last message [m], facts from the search and a response
      from the LLM, the value returned is the one-element list with
      that response, and the last thing [chatbot] did before returning
      is to schedule the write of [m] and the response; when the
      search or the LLM raises, or the history is empty, the exception
      leaves [chatbot] and no write is scheduled. *)
Theorem C5_chatbot_fire_and_forget
    (W : world) (f : trace -> res unit) (state : State) (tr : trace) :
  chatbot (with_add_episode f W) state tr = chatbot W state tr
  /\ (forall query st t,
        get_shoe_data (with_add_episode f W) query st t = get_shoe_data W query st t)
  /\ (forall us th stdin t,
        chat_loop (with_add_episode f W) us th stdin t = chat_loop W us th stdin t)
  /\ episodes_added (snd (chatbot W state tr)) = episodes_added tr
  /\ match last (messages state) with
     | Some m =>
         match w_search W
                 (tr ++ [EvLog INFO "Chatbot node is executing.";
                         EvAwait (search (Views.graphiti_query state m)
                                    (user_node_uuid state) (Some 5))]) with
         | Ok es =>
             match w_llm W
                     (tr ++ [EvLog INFO "Chatbot node is executing.";
                             EvAwait (search (Views.graphiti_query state m)
                                        (user_node_uuid state) (Some 5));
                             EvLog INFO ("Retrieved facts for context: " +:+ bsn
                                         +:+ edges_to_facts_string es);
                             EvAwait (llm_ainvoke
                                        (Views.system_message
                                           (Some (edges_to_facts_string es))
                                         :: messages state))]) with
             | Ok response =>
                 chatbot W state tr
                 = (Ok [response],
                    tr ++ [EvLog INFO "Chatbot node is executing.";
                           EvAwait (search (Views.graphiti_query state m)
                                      (user_node_uuid state) (Some 5));
                           EvLog INFO ("Retrieved facts for context: " +:+ bsn
                                       +:+ edges_to_facts_string es);
                           EvAwait (llm_ainvoke
                                      (Views.system_message
                                         (Some (edges_to_facts_string es))
                                       :: messages state));
                           EvLog INFO ("LLM generated response: "
                                       +:+ content_str (content response));
                           EvCreateTask (Views.turn_episode state m response)])
             | Raise e =>
                 chatbot W state tr
                 = (Raise e,
                    tr ++ [EvLog INFO "Chatbot node is executing.";
                           EvAwait (search (Views.graphiti_query state m)
                                      (user_node_uuid state) (Some 5));
                           EvLog INFO ("Retrieved facts for context: " +:+ bsn
                                       +:+ edges_to_facts_string es);
                           EvAwait (llm_ainvoke
                                      (Views.system_message
                                         (Some (edges_to_facts_string es))
                                       :: messages state))])
             end
         | Raise e =>
             chatbot W state tr
             = (Raise e,
                tr ++ [EvLog INFO "Chatbot node is executing.";
                       EvAwait (search (Views.graphiti_query state m)
                                  (user_node_uuid state) (Some 5))])
         end
     | None =>
         match w_llm W
                 (tr ++ [EvLog INFO "Chatbot node is executing.";
                         EvAwait (llm_ainvoke [Views.system_message None])]) with
         | Ok response =>
             chatbot W state tr
             = (Raise index_error,
                tr ++ [EvLog INFO "Chatbot node is executing.";
                       EvAwait (llm_ainvoke [Views.system_message None]);
                       EvLog INFO ("LLM generated response: "
                                   +:+ content_str (content response))])
         | Raise e =>
             chatbot W state tr
             = (Raise e,
                tr ++ [EvLog INFO "Chatbot node is executing.";
                       EvAwait (llm_ainvoke [Views.system_message None])])
         end
     end.
Proof.
  split; [reflexivity|]. split; [reflexivity|].
  split; [intros; apply chat_loop_ignores_add_episode|].
  split.
  - destruct (chatbot_awaits_no_episode W state tr) as (added & E & F).
    rewrite E. unfold episodes_added. rewrite omap_app.
    rewrite (omap_none _ added), app_nil_r; [reflexivity|].
    eapply Forall_impl; [exact F|].
    intros [ | | | [] | ]; cbn; tauto.
  - unfold Views.graphiti_query, Views.system_message, Views.turn_episode.
    unfold chatbot, last_item.
    destruct (last (messages state)) as [m|] eqn:Hlast.
    + assert (Hne : (0 <? length (messages state))%nat = true)
        by (destruct (messages state); [discriminate | reflexivity]).
      rewrite Hne.
      unfold create_task, bind, log, emit, await, lift, ret.
      rewrite <- ?app_assoc. cbn [app].
      destruct (w_search W _) as [es|e]; [|reflexivity].
      rewrite <- ?app_assoc. cbn [app].
      destruct (w_llm W _) as [response|e]; rewrite <- ?app_assoc; reflexivity.
    + apply last_None in Hlast. rewrite Hlast. cbn [length Nat.ltb Nat.leb].
      unfold create_task, bind, log, emit, await, lift, ret.
      rewrite <- ?app_assoc. cbn [app].
      destruct (w_llm W _) as [response|e]; rewrite <- ?app_assoc; reflexivity.
Qed.

(** By contrast the awaited writes of [setup_database] are observed:
    a failing store aborts the setup. *)
Example setup_database_observes_add_episode :
  fst (setup_database Samples.unresolved_after_setup []) 
  <> fst (setup_database
            (with_add_episode (fun _ => Raise (Exn RuntimeError "write failed"))
               Samples.unresolved_after_setup) []).
Proof. discriminate. Qed.

(** The same run of the callback, with a store that rejects the write. *)
Example chatbot_with_failing_store :
  fst (chatbot failing_stream sample_state []) = Ok [reply "Hello!"]
  /\ last (snd (chatbot failing_stream sample_state []))
     = Some (EvCreateTask
               (add_episode (PStr "Chatbot Response")
                  ("jess: size 9?" +:+ bsn +:+ "SalesBot: Hello!") "Chatbot" message)).
Proof. split; reflexivity. Qed.

End ChatbotFacts.

(** ** The chat loop *)

Module LoopFacts.
Import Py Eff Trace TraceFacts RunFacts Advanced Samples.

Lemma show_value_prints_or_fails : prints_or_fails empty_messages show_value.
Proof.
  intros [msgs|] tr.
  - unfold show_value, bind, lift, last_item.
    destruct (last msgs) as [m|] eqn:Hlast.
    + destruct (kind m), (content m); cbn;
        try (exists []; rewrite app_nil_r; split; [constructor | left; reflexivity]).
      exists [EvPrint s ""]. split; [repeat constructor | left; reflexivity].
    + exists []. rewrite app_nil_r. split; [constructor|]. right.
      split; [|reflexivity].
      destruct msgs as [|m msgs]; [reflexivity|].
      apply last_None in Hlast. discriminate.
  - exists []. rewrite app_nil_r. split; [constructor | left; reflexivity].
Qed.

Lemma for_each_prints_or_fails {A} (bad : A -> Prop) (body : A -> M unit) :
  prints_or_fails bad body -> prints_or_fails (Exists bad) (for_each body).
Proof.
  intros Hb xs. induction xs as [|x rest IH]; intros tr.
  - exists []. rewrite app_nil_r. split; [constructor | left; reflexivity].
  - cbn [for_each]. unfold bind.
    destruct (Hb x tr) as (s1 & F1 & [E1 | [Bx E1]]); rewrite E1.
    + destruct (IH (tr ++ s1)) as (s2 & F2 & [E2 | [Br E2]]); rewrite E2;
        exists (s1 ++ s2); rewrite app_assoc;
        (split; [apply Forall_app; auto|]).
      * left; reflexivity.
      * right. split; [right; exact Br | reflexivity].
    + exists s1. split; [exact F1|]. right. split; [left; exact Bx | reflexivity].
Qed.

Lemma stream_events_print_or_fail :
  prints_or_fails (Exists (Exists empty_messages)) (for_each (for_each show_value)).
Proof.
  apply for_each_prints_or_fails, for_each_prints_or_fails,
    show_value_prints_or_fails.
Qed.

Lemma adds_stream_turn (P : event -> Prop) W gs th :
  P (EvAwait (astream gs th)) -> (forall t e, P (EvPrint t e)) ->
  adds P (stream_turn W gs th).
Proof.
  intros Hs Hp tr. unfold stream_turn.
  destruct (w_astream W _) as [events failure].
  destruct (stream_events_print_or_fail events (tr ++ [EvAwait (astream gs th)]))
    as (shown & F & E).
  assert (FP : Forall P shown).
  { eapply Forall_impl; [exact F|]. intros [ | | | | ]; cbn; try tauto. intros _. apply Hp. }
  exists (EvAwait (astream gs th) :: shown).
  split; [|constructor; assumption].
  unfold bind. destruct E as [E | [_ E]]; rewrite E.
  - destruct failure; cbn; rewrite <- app_assoc; reflexivity.
  - cbn. rewrite <- app_assoc. reflexivity.
Qed.

Lemma adds_turn (P : event -> Prop) W us th line :
  P (EvAwait (astream (graph_state us line) th)) -> (forall t e, P (EvPrint t e)) ->
  adds P (turn W us th line).
Proof.
  intros Hs Hp. unfold turn.
  adds_step; [apply adds_emit, Hp|].
  adds_step; [|apply adds_emit, Hp].
  adds_step; [apply adds_stream_turn; assumption | apply adds_emit, Hp].
Qed.

Lemma adds_chat_loop (P : event -> Prop) W us th stdin :
  (forall line, P (EvAwait (astream (graph_state us line) th))) ->
  (forall t e, P (EvPrint t e)) -> (forall l, P (EvInput "You: " l)) ->
  adds P (chat_loop W us th stdin).
Proof.
  intros Hs Hp Hi. induction stdin as [|line rest IH]; cbn [chat_loop].
  - adds_step; [apply adds_input, Hi | apply adds_ret].
  - adds_step; [apply adds_input, Hi|].
    destruct (String.eqb _ _); [apply adds_ret|].
    adds_step; [apply adds_turn; auto | exact IH].
Qed.

(** Every pass of the loop starts by prompting. *)
Lemma chat_loop_prompts_first W us th stdin tr :
  exists more,
    snd (chat_loop W us th stdin tr) = tr ++ EvInput "You: " (head stdin) :: more.
Proof.
  destruct stdin as [|line rest]; cbn [chat_loop head].
  - exists []. reflexivity.
  - unfold bind at 1. cbn [input].
    destruct (String.eqb _ _).
    + exists []. reflexivity.
    + assert (Hk : adds (fun _ => True)
                     (bind (turn W us th line) (fun _ => chat_loop W us th rest))).
      { adds_step; [apply adds_turn | apply adds_chat_loop]; auto. }
      destruct (Hk (tr ++ [EvInput "You: " (Some line)])) as (more & E & _).
      exists more. rewrite E, <- app_assoc. reflexivity.
Qed.

(** C4: when the stream of a turn raises an [Exception], the loop
    catches it, prints [An error occurred: ] followed by the text of the
    exception raised under [try], and goes on with the next pass, which
    prompts again.  The exception printed is the one of the stream,
    unless an earlier event carried an empty [messages] list, in which
    case it is the [IndexError] of [value['messages'][-1]]. *)
Theorem C4_turn_exception_is_caught
    (W : world) (us : UserState) (th line : string) (rest : list string)
    (tr : trace) (events : list StreamEvent) (e : exn) :
  lower line <> "exit" ->
  w_astream W (tr ++ [EvInput "You: " (Some line); EvPrint "Assistant: " "";
                      EvAwait (astream (graph_state us line) th)])
  = (events, Some e) ->
  is_Exception (exn_cls e) = true ->
  exists e' shown next more,
    Forall is_print shown
    /\ (e' = e \/ (Exists (Exists empty_messages) events /\ e' = index_error))
    /\ next = tr ++ [EvInput "You: " (Some line); EvPrint "Assistant: " "";
                     EvAwait (astream (graph_state us line) th)]
               ++ shown ++ [EvPrint ("An error occurred: " +:+ exn_str e') nl]
    /\ chat_loop W us th (line :: rest) tr = chat_loop W us th rest next
    /\ snd (chat_loop W us th rest next) = next ++ EvInput "You: " (head rest) :: more.
Proof.
  intros Hline Hstream Hexc.
  set (T := tr ++ [EvInput "You: " (Some line); EvPrint "Assistant: " "";
                   EvAwait (astream (graph_state us line) th)]) in *.
  destruct (stream_events_print_or_fail events T) as (shown & F & E).
  assert (Hrun : forall e', 
            (e' = e \/ (Exists (Exists empty_messages) events /\ e' = index_error)) ->
            (bind (for_each (for_each show_value) events)
               (fun _ => match Some e with None => ret tt | Some x => raise x end)) T
            = (Raise e', T ++ shown) ->
            chat_loop W us th (line :: rest) tr
            = chat_loop W us th rest
                (T ++ shown ++ [EvPrint ("An error occurred: " +:+ exn_str e') nl])).
  { intros e' He' Hbody.
    assert (Hc : is_Exception (exn_cls e') = true).
    { destruct He' as [-> | [_ ->]]; [exact Hexc | reflexivity]. }
    cbn [chat_loop]. unfold bind at 1. cbn [input].
    destruct (String.eqb_spec (lower line) "exit") as [Heq|_]; [contradiction|].
    unfold bind at 1. unfold turn at 1.
    unfold bind at 1. unfold print_end at 1, emit at 1.
    unfold try_except. unfold bind at 1. unfold stream_turn at 1.
    rewrite <- !app_assoc. cbn [app]. fold T.
    rewrite Hstream, Hbody, Hc.
    unfold print, emit. rewrite <- app_assoc. reflexivity. }
  destruct E as [E | [Bad E]].
  - destruct (chat_loop_prompts_first W us th rest
                (T ++ shown ++ [EvPrint ("An error occurred: " +:+ exn_str e) nl]))
      as (more & Hmore).
    exists e, shown,
      (T ++ shown ++ [EvPrint ("An error occurred: " +:+ exn_str e) nl]), more.
    split; [exact F|]. split; [left; reflexivity|].
    split; [unfold T; rewrite <- app_assoc; reflexivity|].
    split; [|exact Hmore].
    apply Hrun; [left; reflexivity|]. unfold bind. rewrite E. reflexivity.
  - destruct (chat_loop_prompts_first W us th rest
                (T ++ shown ++ [EvPrint ("An error occurred: " +:+ exn_str index_error) nl]))
      as (more & Hmore).
    exists index_error, shown,
      (T ++ shown ++ [EvPrint ("An error occurred: " +:+ exn_str index_error) nl]), more.
    split; [exact F|]. split; [right; split; [exact Bad | reflexivity]|].
    split; [unfold T; rewrite <- app_assoc; reflexivity|]. split; [|exact Hmore].
    apply Hrun; [right; split; [exact Bad | reflexivity]|].
    unfold bind. rewrite E. reflexivity.
Qed.

Lemma C4_witness :
  exists e' shown next more,
    Forall is_print shown
    /\ (e' = Exn RuntimeError "connection lost"
        \/ (Exists (Exists empty_messages) [[Some [reply "Hi"]]] /\ e' = index_error))
    /\ next = [] ++ [EvInput "You: " (Some "hello"); EvPrint "Assistant: " "";
                     EvAwait (astream (graph_state
                                         {| us_user_name := "jess";
                                            us_user_node_uuid := Some "u-1";
                                            us_manybirds_node_uuid := Some "u-1" |}
                                         "hello") "t-1")]
               ++ shown ++ [EvPrint ("An error occurred: " +:+ exn_str e') nl]
    /\ chat_loop failing_stream
         {| us_user_name := "jess"; us_user_node_uuid := Some "u-1";
            us_manybirds_node_uuid := Some "u-1" |} "t-1" ["hello"; "exit"] []
       = chat_loop failing_stream
           {| us_user_name := "jess"; us_user_node_uuid := Some "u-1";
              us_manybirds_node_uuid := Some "u-1" |} "t-1" ["exit"] next
    /\ snd (chat_loop failing_stream
              {| us_user_name := "jess"; us_user_node_uuid := Some "u-1";
                 us_manybirds_node_uuid := Some "u-1" |} "t-1" ["exit"] next)
       = next ++ EvInput "You: " (head ["exit"]) :: more.
Proof.
  apply (C4_turn_exception_is_caught failing_stream
           {| us_user_name := "jess"; us_user_node_uuid := Some "u-1";
              us_manybirds_node_uuid := Some "u-1" |}
           "t-1" "hello" ["exit"] [] [[Some [reply "Hi"]]]
           (Exn RuntimeError "connection lost")).
  - discriminate.
  - reflexivity.
  - reflexivity.
Defined.

(** An exception outside [Exception] is not caught and ends the loop. *)
Example keyboard_interrupt_leaves_loop :
  fst (chat_loop
         (with_add_episode (fun _ => Ok tt)
            {| w_clear_data := fun _ => Ok tt; w_build_indices := fun _ => Ok tt;
               w_add_episode := fun _ => Ok tt; w_search := fun _ => Ok [];
               w_node_search := fun _ => Ok (WithNodes []);
               w_llm := fun _ => Raise (Exn RuntimeError "no model");
               w_astream := fun _ => ([], Some (Exn KeyboardInterrupt ""));
               w_close := fun _ => Ok tt; w_json_file_path := "";
               w_products_file := None; w_uuid4_hex := "" |})
         {| us_user_name := "jess"; us_user_node_uuid := Some "u-1";
            us_manybirds_node_uuid := Some "u-1" |} "t-1" ["hello"; "exit"] [])
  = Raise (Exn KeyboardInterrupt "").
Proof. reflexivity. Qed.

End LoopFacts.

(** ** The sentinel and the setup prompt *)

Module PromptFacts.
Import Py Eff Trace TraceFacts RunFacts Advanced Samples LoopFacts.

Lemma turn_trace W us th line tr :
  exists shown,
    Forall is_print shown
    /\ snd (turn W us th line tr)
       = tr ++ EvPrint "Assistant: " "" :: EvAwait (astream (graph_state us line) th) :: shown.
Proof.
  unfold turn. unfold bind at 1. unfold print_end, emit.
  unfold try_except. unfold bind at 1. unfold stream_turn.
  destruct (w_astream W _) as [events failure].
  destruct (stream_events_print_or_fail events
              ((tr ++ [EvPrint "Assistant: " ""])
               ++ [EvAwait (astream (graph_state us line) th)]))
    as (shown & F & [E | [_ E]]); unfold bind; rewrite E.
  - destruct failure as [e|].
    + unfold raise. destruct (is_Exception (exn_cls e)).
      * exists (shown ++ [EvPrint ("An error occurred: " +:+ exn_str e) nl]).
        split; [apply Forall_app; split; [exact F | repeat constructor]|].
        cbn. rewrite <- !app_assoc. reflexivity.
      * exists shown. split; [exact F|]. cbn. rewrite <- !app_assoc. reflexivity.
    + exists (shown ++ [EvPrint "" nl]).
      split; [apply Forall_app; split; [exact F | repeat constructor]|].
      cbn. rewrite <- !app_assoc. reflexivity.
  - exists (shown ++ [EvPrint ("An error occurred: " +:+ exn_str index_error) nl]).
    split; [apply Forall_app; split; [exact F | repeat constructor]|].
    cbn. rewrite <- !app_assoc. reflexivity.
Qed.

Lemma chat_lines_prints shown : Forall is_print shown -> chat_lines shown = [].
Proof.
  intros F. apply omap_none. eapply Forall_impl; [exact F|].
  intros [ | | | | ]; cbn; tauto.
Qed.

Lemma streamed_prints shown : Forall is_print shown -> streamed shown = [].
Proof.
  intros F. apply omap_none. eapply Forall_impl; [exact F|].
  intros [ | | | | ]; cbn; tauto.
Qed.

Lemma chat_loop_cons W us th line rest tr :
  chat_loop W us th (line :: rest) tr
  = if String.eqb (lower line) "exit"
    then (Ok tt, tr ++ [EvInput "You: " (Some line)])
    else match turn W us th line (tr ++ [EvInput "You: " (Some line)]) with
         | (Ok _, tr1) => chat_loop W us th rest tr1
         | (Raise e, tr1) => (Raise e, tr1)
         end.
Proof.
  cbn [chat_loop]. unfold bind at 1. cbn [input].
  destruct (String.eqb _ _); reflexivity.
Qed.

Lemma chat_loop_sentinel W us th stdin :
  forall tr, exists added,
    snd (chat_loop W us th stdin tr) = tr ++ added
    /\ sentinel_ends_loop (fst (chat_loop W us th stdin tr)) added.
Proof.
  induction stdin as [|line rest IH]; intros tr.
  - exists [EvInput "You: " None]. split; [reflexivity|].
    cbn. repeat split.
    + discriminate.
    + discriminate.
    + intros (l & H & _). discriminate.
    + intros [|x pre] l post H Hl.
      * inversion H; subst. discriminate.
      * inversion H as [[Hx Hp]]. destruct pre; discriminate.
  - rewrite chat_loop_cons.
    destruct (String.eqb_spec (lower line) "exit") as [Hexit | Hno].
    + exists [EvInput "You: " (Some line)]. split; [reflexivity|].
      assert (Hl : chat_lines [EvInput "You: " (Some line)] = [Some line]) by reflexivity.
      assert (Hs : streamed [EvInput "You: " (Some line)] = []) by reflexivity.
      unfold sentinel_ends_loop. rewrite Hl, Hs. cbn [fst]. repeat split.
      * discriminate.
      * intros _. exists line. auto.
      * intros [|x pre] l post H Hx.
        -- inversion H; reflexivity.
        -- inversion H as [[Hy Hp]]. destruct pre; discriminate.
      * cbn [messages_of_lines map]. rewrite Hexit. reflexivity.
    + destruct (turn_trace W us th line (tr ++ [EvInput "You: " (Some line)]))
        as (shown & F & Et).
      assert (Hlines : chat_lines
                (EvInput "You: " (Some line) :: EvPrint "Assistant: " ""
                 :: EvAwait (astream (graph_state us line) th) :: shown) = [Some line]).
      { cbn. f_equal. apply chat_lines_prints, F. }
      assert (Hsent : streamed
                (EvInput "You: " (Some line) :: EvPrint "Assistant: " ""
                 :: EvAwait (astream (graph_state us line) th) :: shown)
              = [graph_state us line]).
      { cbn. f_equal. apply streamed_prints, F. }
      assert (Hmsg : messages_of_lines [Some line] = [[("user", line)]]).
      { cbn. destruct (String.eqb_spec (lower line) "exit"); [contradiction | reflexivity]. }
      destruct (turn W us th line (tr ++ [EvInput "You: " (Some line)]))
        as [[u|e] tr1]; cbn [snd] in Et; subst tr1.
      * destruct (IH ((tr ++ [EvInput "You: " (Some line)]) ++
                      EvPrint "Assistant: " ""
                      :: EvAwait (astream (graph_state us line) th) :: shown))
          as (added2 & E2 & N2 & I2 & S2 & M2).
        exists ((EvInput "You: " (Some line) :: EvPrint "Assistant: " ""
                 :: EvAwait (astream (graph_state us line) th) :: shown) ++ added2).
        split.
        { rewrite E2. rewrite <- !app_assoc. reflexivity. }
        assert (Hl : chat_lines
                  ((EvInput "You: " (Some line) :: EvPrint "Assistant: " ""
                    :: EvAwait (astream (graph_state us line) th) :: shown) ++ added2)
                = Some line :: chat_lines added2).
        { unfold chat_lines at 1. rewrite omap_app. fold (chat_lines added2).
          change (omap _ (EvInput "You: " (Some line) :: ?t)) with
            (chat_lines (EvInput "You: " (Some line) :: t)).
          rewrite Hlines. reflexivity. }
        unfold sentinel_ends_loop. rewrite Hl. repeat split.
        -- discriminate.
        -- intros H. apply I2 in H. destruct H as (l & H1 & H2). exists l.
           split; [|exact H2].
           destruct (chat_lines added2); [contradiction | exact H1].
        -- intros (l & H1 & H2). apply I2. exists l. split; [|exact H2].
           destruct (chat_lines added2); [contradiction | exact H1].
        -- intros [|x pre] l post H Hx.
           ++ inversion H; subst. cbn in Hx.
              destruct (String.eqb_spec (lower line) "exit"); [contradiction | discriminate].
           ++ inversion H as [[Hy Hp]]. eapply S2; eauto.
        -- unfold streamed at 1. rewrite omap_app. fold (streamed added2).
           change (omap _ (EvInput "You: " (Some line) :: ?t)) with
             (streamed (EvInput "You: " (Some line) :: t)).
           rewrite Hsent. cbn [app map messages_of_lines].
           destruct (String.eqb_spec (lower line) "exit"); [contradiction|].
           rewrite M2. reflexivity.
      * exists (EvInput "You: " (Some line) :: EvPrint "Assistant: " ""
                :: EvAwait (astream (graph_state us line) th) :: shown).
        split; [cbn [snd]; rewrite <- app_assoc; reflexivity|].
        unfold sentinel_ends_loop. rewrite Hlines, Hsent, Hmsg. cbn [fst].
        repeat split.
        -- discriminate.
        -- discriminate.
        -- intros (l & H1 & H2). cbn in H1. inversion H1; subst. contradiction.
        -- intros [|x pre] l post H Hx.
           ++ inversion H; reflexivity.
           ++ inversion H as [[Hy Hp]]. destruct pre; discriminate.
Qed.

Lemma adds_ingest (P : event -> Prop) W i products :
  (forall n b d t, P (EvAwait (add_episode n b d t))) -> adds P (ingest W i products).
Proof.
  intros Hp. revert i. induction products as [|product rest IH]; intros i; cbn [ingest].
  - apply adds_ret.
  - destruct product; try apply adds_raise.
    adds_step; [apply adds_await, Hp | apply IH].
Qed.

Lemma adds_setup_database W : adds setup_event (setup_database W).
Proof.
  unfold setup_database. adds_auto.
  apply adds_ingest. intros; exact I.
Qed.

Lemma adds_resolve_nodes W l : adds setup_event (resolve_nodes W l).
Proof.
  unfold resolve_nodes. destruct (String.eqb _ _).
  - adds_step; [apply adds_setup_database|]. adds_auto.
  - adds_auto.
Qed.

Lemma try_except_ok_inv {A} (body : M A) catches (handler : exn -> M A) tr a tr' :
  try_except body catches handler tr = (Ok a, tr') ->
  body tr = (Ok a, tr')
  \/ exists e tr1, body tr = (Raise e, tr1) /\ handler e tr1 = (Ok a, tr').
Proof.
  unfold try_except. destruct (body tr) as [[x|e] tr1]; intros H.
  - left. exact H.
  - destruct (catches (exn_cls e)); [|discriminate]. right. eauto.
Qed.

(** [setup_database] returns two [None]s or two identifiers. *)
Lemma setup_database_result W tr u m tr' :
  setup_database W tr = (Ok (u, m), tr') ->
  (u = None /\ m = None) \/ (is_Some u /\ is_Some m).
Proof.
  unfold setup_database. intros H.
  repeat (apply bind_ok_inv in H; destruct H as (? & ? & _ & H)).
  destruct (w_products_file W).
  - repeat (apply bind_ok_inv in H; destruct H as (? & ? & _ & H)).
    inversion H; subst. right. split; eexists; reflexivity.
  - repeat (apply bind_ok_inv in H; destruct H as (? & ? & _ & H)).
    inversion H; subst. left. auto.
Qed.

(** Past the first part of [main] both identifiers are set. *)
Lemma resolve_nodes_result W l tr u m tr' :
  resolve_nodes W l tr = (Ok (Some (u, m)), tr') -> is_Some u /\ is_Some m.
Proof.
  unfold resolve_nodes. destruct (String.eqb _ _); intros H.
  - apply bind_ok_inv in H. destruct H as ([ua ma] & tr1 & Hs & H).
    apply setup_database_result in Hs.
    destruct ua as [x|]; inversion H; subst.
    destruct Hs as [[Hn _] | Hs]; [discriminate | exact Hs].
  - apply try_except_ok_inv in H. destruct H as [H | (e & tr1 & _ & H)].
    + repeat (apply bind_ok_inv in H; destruct H as (? & ? & _ & H)).
      inversion H; subst. split; eexists; reflexivity.
    + apply bind_ok_inv in H. destruct H as (? & ? & _ & H). inversion H.
Qed.

Lemma adds_session (P : event -> Prop) W us th stdin :
  (forall line, P (EvAwait (astream (graph_state us line) th))) ->
  (forall t e, P (EvPrint t e)) -> (forall l, P (EvInput "You: " l)) ->
  P (EvAwait close) ->
  adds P (print (bsn +:+ "--- ShoeBot is ready! ---") ;;
          print "Type 'exit' to end the conversation." ;;
          print "Hello, how can I help you find shoes today?" ;;
          chat_loop W us th stdin ;;
          await close (w_close W) ;;
          print (bsn +:+ "--- Conversation ended ---"))%eff.
Proof.
  intros Hs Hp Hi Hc.
  repeat (adds_step; [apply adds_emit, Hp|]).
  adds_step; [apply adds_chat_loop; assumption|].
  adds_step; [apply adds_await, Hc | apply adds_emit, Hp].
Qed.

Lemma adds_main_resolved W stdin : adds resolved_stream (main W stdin).
Proof.
  unfold main. adds_step; [apply adds_input; intros; exact I|].
  destruct a as [run_setup stdin'].
  apply adds_bind_ok.
  - eapply adds_weaken; [|apply adds_resolve_nodes].
    intros [ | | | [] | ]; cbn; tauto.
  - intros [[u m]|] (tr & tr' & H); [|apply adds_ret].
    apply resolve_nodes_result in H.
    apply adds_session; intros; try exact I. exact H.
Qed.

Lemma adds_main_rest (P : event -> Prop) W ids stdin :
  (forall gs th, P (EvAwait (astream gs th))) ->
  (forall t e, P (EvPrint t e)) -> (forall l, P (EvInput "You: " l)) ->
  P (EvAwait close) ->
  adds P (match ids with
          | None => ret tt
          | Some (user_uuid, manybirds_uuid) =>
              let thread_id := w_uuid4_hex W in
              let user_state :=
                {| us_user_name := "jess";
                   us_user_node_uuid := user_uuid;
                   us_manybirds_node_uuid := manybirds_uuid |} in
              (print (bsn +:+ "--- ShoeBot is ready! ---") ;;
               print "Type 'exit' to end the conversation." ;;
               print "Hello, how can I help you find shoes today?" ;;
               chat_loop W user_state thread_id stdin ;;
               await close (w_close W) ;;
               print (bsn +:+ "--- Conversation ended ---"))%eff
          end).
Proof.
  intros Hs Hp Hi Hc. destruct ids as [[u m]|]; [|apply adds_ret].
  apply adds_session; auto.
Qed.

Lemma bind_extends {A B} (c : M A) (k : A -> M B) :
  (forall a, adds (fun _ => True) (k a)) ->
  forall tr, exists more, snd (bind c k tr) = snd (c tr) ++ more.
Proof.
  intros Hk tr. unfold bind. destruct (c tr) as [[a|e] tr1].
  - destruct (Hk a tr1) as (more & E & _). exists more. exact E.
  - exists []. cbn. rewrite app_nil_r. reflexivity.
Qed.

Lemma setup_ran_app tr1 tr2 : setup_ran (tr1 ++ tr2) = setup_ran tr1 || setup_ran tr2.
Proof. unfold setup_ran. apply existsb_app. Qed.

Lemma setup_ran_none added : Forall not_clear_data added -> setup_ran added = false.
Proof.
  induction 1 as [|e rest He _ IH]; [reflexivity|].
  unfold setup_ran in *. cbn [existsb]. rewrite IH.
  destruct e as [ | | | [] | ]; cbn in *; tauto.
Qed.

(** [setup_database] always gets as far as clearing the graph. *)
Lemma setup_database_clears W tr : setup_ran (snd (setup_database W tr)) = true.
Proof.
  unfold setup_database, log.
  change (bind (emit ?e) ?k tr) with (k tt (tr ++ [e])). cbv beta.
  change (bind (emit ?e) ?k (?t ++ [?x])) with (k tt ((t ++ [x]) ++ [e])). cbv beta.
  match goal with |- context [bind (await clear_data ?o) ?k ?t] =>
    destruct (bind_extends (await clear_data o) k) with (tr := t) as (more & ->)
  end.
  - intros a. apply adds_True with (P := setup_event).
    adds_auto. apply adds_ingest. intros; exact I.
  - change (snd (await clear_data ?o ?t)) with (t ++ [EvAwait clear_data]).
    rewrite !setup_ran_app.
    change (setup_ran [EvAwait clear_data]) with true.
    rewrite orb_true_r. reflexivity.
Qed.

Lemma run_setup_iff W l rest :
  setup_ran (snd (run W (l :: rest))) = String.eqb (lower l) "yes".
Proof.
  unfold run.
  pose (K := fun ids : option (option string * option string) =>
               match ids with
               | None => ret tt
               | Some (user_uuid, manybirds_uuid) =>
                   let thread_id := w_uuid4_hex W in
                   let user_state :=
                     {| us_user_name := "jess";
                        us_user_node_uuid := user_uuid;
                        us_manybirds_node_uuid := manybirds_uuid |} in
                   (print (bsn +:+ "--- ShoeBot is ready! ---") ;;
                    print "Type 'exit' to end the conversation." ;;
                    print "Hello, how can I help you find shoes today?" ;;
                    chat_loop W user_state thread_id rest ;;
                    await close (w_close W) ;;
                    print (bsn +:+ "--- Conversation ended ---"))%eff
               end).
  assert (Hm : main W (l :: rest) []
               = bind (resolve_nodes W l) K [EvInput setup_prompt (Some l)])
    by reflexivity.
  rewrite Hm. clear Hm.
  assert (HK : forall P : event -> Prop,
             (forall gs th, P (EvAwait (astream gs th))) ->
             (forall t e, P (EvPrint t e)) -> (forall x, P (EvInput "You: " x)) ->
             P (EvAwait close) -> forall ids, adds P (K ids)).
  { intros P H1 H2 H3 H4 ids. apply adds_main_rest; assumption. }
  destruct (String.eqb (lower l) "yes") eqn:Hyes.
  - destruct (bind_extends (resolve_nodes W l) K) with (tr := [EvInput setup_prompt (Some l)])
      as (more & ->).
    + intros ids. apply HK; intros; exact I.
    + unfold resolve_nodes. rewrite Hyes.
      match goal with |- context [bind (setup_database W) ?k ?t] =>
        destruct (bind_extends (setup_database W) k) with (tr := t) as (more2 & ->)
      end.
      * intros [u m]. destruct u; apply adds_ret.
      * rewrite !setup_ran_app, setup_database_clears. reflexivity.
  - assert (H : adds not_clear_data (bind (resolve_nodes W l) K)).
    { adds_step.
      - unfold resolve_nodes. rewrite Hyes. adds_auto.
      - apply HK; intros; exact I. }
    destruct (H [EvInput setup_prompt (Some l)]) as (added & E & F).
    rewrite E, setup_ran_app, (setup_ran_none added F). reflexivity.
Qed.

(** C8: the chat loop ends through the sentinel exactly when the line
    read, lowercased, is [exit]: the loop returns normally if and only
    if the last line it read is such a line, no line is read after one,
    and every other line read goes to the graph as one user message, in
    order.  The setup runs (the graph is cleared) exactly when the
    answer to the setup prompt, lowercased, is [yes]. *)
Theorem C8_sentinel_and_setup_prompt :
  (forall W us th stdin tr, exists added,
      snd (chat_loop W us th stdin tr) = tr ++ added
      /\ sentinel_ends_loop (fst (chat_loop W us th stdin tr)) added)
  /\ (forall W l rest,
        setup_ran (snd (run W (l :: rest))) = String.eqb (lower l) "yes")
  /\ lower "EXIT" = "exit" /\ lower "Exit" = "exit".
Proof.
  split; [|split; [|split; reflexivity]].
  - intros. apply chat_loop_sentinel.
  - intros. apply run_setup_iff.
Qed.

Lemma C8_witness :
  setup_ran (snd (run empty_graph ["YES"])) = String.eqb (lower "YES") "yes"
  /\ exists added,
       snd (chat_loop failing_stream
              {| us_user_name := "jess"; us_user_node_uuid := Some "u-1";
                 us_manybirds_node_uuid := Some "u-1" |} "t-1" ["hello"; "EXIT"; "more"] [])
       = [] ++ added
       /\ sentinel_ends_loop
            (fst (chat_loop failing_stream
                    {| us_user_name := "jess"; us_user_node_uuid := Some "u-1";
                       us_manybirds_node_uuid := Some "u-1" |} "t-1"
                    ["hello"; "EXIT"; "more"] []))
            added.
Proof.
  split.
  - apply (proj1 (proj2 C8_sentinel_and_setup_prompt)).
  - apply (proj1 C8_sentinel_and_setup_prompt).
Defined.

Example exit_in_capitals_ends_the_loop :
  fst (chat_loop failing_stream
         {| us_user_name := "jess"; us_user_node_uuid := Some "u-1";
            us_manybirds_node_uuid := Some "u-1" |} "t-1" ["hello"; "EXIT"; "more"] [])
  = Ok tt
  /\ chat_lines (snd (chat_loop failing_stream
         {| us_user_name := "jess"; us_user_node_uuid := Some "u-1";
            us_manybirds_node_uuid := Some "u-1" |} "t-1" ["hello"; "EXIT"; "more"] []))
     = [Some "hello"; Some "EXIT"].
Proof. split; reflexivity. Qed.

(** C7: the identifiers that leave the first part of [main] are both
    set, and every graph state that [main] sends to the stream carries
    a user node identifier and a brand node identifier different from
    [None]. *)
Theorem C7_loop_state_has_resolved_nodes
    (W : world) (l : string) (stdin : list string) (tr tr' : trace)
    (u m : option string) (gs : GraphState) :
  (resolve_nodes W l tr = (Ok (Some (u, m)), tr') -> is_Some u /\ is_Some m)
  /\ (In gs (streamed (snd (run W stdin))) ->
      is_Some (gs_user_node_uuid gs) /\ is_Some (gs_manybirds_node_uuid gs)).
Proof.
  split; [apply resolve_nodes_result|].
  unfold run. destruct (adds_main_resolved W stdin []) as (added & E & F).
  rewrite E. cbn [app]. intros Hin.
  unfold streamed in Hin. apply list_elem_of_In, list_elem_of_omap in Hin.
  destruct Hin as (e & He & Hgs).
  rewrite Forall_forall in F. apply F in He.
  destruct e as [ | | | [] | ]; try discriminate.
  inversion Hgs; subst. exact He.
Qed.

Lemma C7_witness :
  (is_Some (Some "u-1") /\ is_Some (Some "u-1"))
  /\ (is_Some (gs_user_node_uuid
                 (graph_state {| us_user_name := "jess"; us_user_node_uuid := Some "u-1";
                                 us_manybirds_node_uuid := Some "u-1" |} "hello"))
      /\ is_Some (gs_manybirds_node_uuid
                    (graph_state {| us_user_name := "jess"; us_user_node_uuid := Some "u-1";
                                    us_manybirds_node_uuid := Some "u-1" |} "hello"))).
Proof.
  split.
  - apply (proj1 (C7_loop_state_has_resolved_nodes failing_stream "no" ["no"; "hello"]
                    [] (snd (resolve_nodes failing_stream "no" []))
                    (Some "u-1") (Some "u-1")
                    (graph_state {| us_user_name := "jess"; us_user_node_uuid := Some "u-1";
                                    us_manybirds_node_uuid := Some "u-1" |} "hello"))).
    reflexivity.
  - apply (proj2 (C7_loop_state_has_resolved_nodes failing_stream "no" ["no"; "hello"]
                    [] [] (Some "u-1") (Some "u-1")
                    (graph_state {| us_user_name := "jess"; us_user_node_uuid := Some "u-1";
                                    us_manybirds_node_uuid := Some "u-1" |} "hello"))).
    cbn. left. reflexivity.
Defined.

End PromptFacts.

(** ** Missing data and unresolved lookups *)

Module EarlyReturnFacts.
Import Py Eff Trace TraceFacts RunFacts Advanced Samples.

Lemma setup_database_missing_file W l :
  missing_sample_data W l ->
  setup_database W [EvInput setup_prompt (Some l)]
  = (Ok (None, None),
     setup_prefix l ++
     [EvAwait build_indices_and_constraints;
      EvLog INFO "Database cleared and schema built.";
      EvLog ERROR ("Product data not found at " +:+ w_json_file_path W)]).
Proof.
  intros (_ & Hfile & Hclear & Hbuild).
  unfold setup_prefix in *. cbn [app] in *.
  unfold setup_database, bind, log, emit, await. cbn [app].
  rewrite Hclear, Hbuild, Hfile. reflexivity.
Qed.

Lemma run_missing_file W l rest :
  missing_sample_data W l ->
  run W (l :: rest)
  = (Ok tt,
     setup_prefix l ++
     [EvAwait build_indices_and_constraints;
      EvLog INFO "Database cleared and schema built.";
      EvLog ERROR ("Product data not found at " +:+ w_json_file_path W)]).
Proof.
  intros H. pose proof (setup_database_missing_file W l H) as Hs.
  destruct H as (Hyes & _).
  unfold run, main. unfold bind at 1. cbn [input app].
  unfold bind at 1. unfold resolve_nodes.
  rewrite Hyes. cbn [String.eqb Ascii.eqb Bool.eqb].
  unfold bind at 1. rewrite Hs. reflexivity.
Qed.

Lemma run_unresolved_first W l rest e :
  lower l <> "yes" ->
  caught_by_lookup (exn_cls e) = true ->
  lookup (w_node_search W (first_lookup l)) = Raise e ->
  run W (l :: rest) = (Ok tt, first_lookup l ++ [EvLog ERROR nodes_not_found]).
Proof.
  intros Hno Hc H.
  unfold run, main. unfold bind at 1. cbn [input app].
  unfold bind at 1. unfold resolve_nodes.
  destruct (String.eqb_spec (lower l) "yes") as [Hy|_]; [contradiction|].
  unfold try_except. unfold bind at 1. unfold await at 1. cbn [app].
  unfold lookup, first_lookup in H.
  destruct (w_node_search W _) as [x|e0].
  - unfold bind at 1. unfold lift at 1. rewrite H, Hc. reflexivity.
  - inversion H; subst. rewrite Hc. reflexivity.
Qed.

Lemma run_unresolved_second W l rest u e :
  lower l <> "yes" ->
  caught_by_lookup (exn_cls e) = true ->
  lookup (w_node_search W (first_lookup l)) = Ok u ->
  lookup (w_node_search W (second_lookup l)) = Raise e ->
  run W (l :: rest) = (Ok tt, second_lookup l ++ [EvLog ERROR nodes_not_found]).
Proof.
  intros Hno Hc H1 H2.
  unfold run, main. unfold bind at 1. cbn [input app].
  unfold bind at 1. unfold resolve_nodes.
  destruct (String.eqb_spec (lower l) "yes") as [Hy|_]; [contradiction|].
  unfold try_except. unfold bind at 1. unfold await at 1. cbn [app].
  unfold lookup, second_lookup, first_lookup in H1, H2. cbn [app] in H2.
  destruct (w_node_search W [_; _]) as [x|e0]; [|discriminate].
  unfold bind at 1. unfold lift at 1. rewrite H1.
  unfold bind at 1. unfold await at 1. cbn [app].
  destruct (w_node_search W [_; _; _]) as [y|e1].
  - unfold bind at 1. unfold lift at 1. rewrite H2, Hc. reflexivity.
  - inversion H2; subst. rewrite Hc. reflexivity.
Qed.

(** X23: when the product file is missing on the setup path (the graph
    having been cleared and its schema built), [setup_database] logs an
    error and returns [(None, None)] having added no episode, and
    [main] returns before the chat loop; when, on the path without
    setup, the lookup of the user or brand node fails with an
    [IndexError] or [AttributeError], [main] logs an error and returns
    before the chat loop. *)
Theorem X23_missing_data_or_unresolved_lookup_returns_early
    (W : world) (l : string) (rest : list string) :
  missing_sample_data W l \/ unresolved_existing_nodes W l ->
  logged_and_returned (run W (l :: rest))
  /\ (lower l = "yes" ->
      setup_database W [EvInput setup_prompt (Some l)]
      = (Ok (None, None), snd (run W (l :: rest)))).
Proof.
  intros [Hm | (Hno & e & Hc & [H1 | [[u H1] H2]])].
  - rewrite (run_missing_file W l rest Hm).
    split.
    + unfold logged_and_returned, setup_prefix. cbn [fst snd app].
      repeat split. eexists. reflexivity.
    + intros _. apply setup_database_missing_file, Hm.
  - rewrite (run_unresolved_first W l rest e Hno Hc H1).
    split; [|intros; contradiction].
    unfold logged_and_returned, first_lookup. cbn [fst snd app].
    repeat split. eexists. reflexivity.
  - rewrite (run_unresolved_second W l rest u e Hno Hc H1 H2).
    split; [|intros; contradiction].
    unfold logged_and_returned, second_lookup, first_lookup. cbn [fst snd app].
    repeat split. eexists. reflexivity.
Qed.

Lemma X23_witness :
  logged_and_returned (run empty_graph ["yes"; "hello"])
  /\ (lower "yes" = "yes" ->
      setup_database empty_graph [EvInput setup_prompt (Some "yes")]
      = (Ok (None, None), snd (run empty_graph ["yes"; "hello"]))).
Proof.
  apply (X23_missing_data_or_unresolved_lookup_returns_early empty_graph "yes" ["hello"]).
  left. repeat split.
Defined.

Example unresolved_lookup_without_setup :
  unresolved_existing_nodes empty_graph "no"
  /\ run empty_graph ["no"; "hello"]
     = (Ok tt, first_lookup "no" ++ [EvLog ERROR nodes_not_found]).
Proof.
  split; [|reflexivity].
  split; [discriminate|]. exists index_error. split; [reflexivity|]. left. reflexivity.
Qed.

(** C3, at the input [yes] with the product file in place and no node
    found for the user: the lookup [nodes[0]] inside [setup_database]
    raises [IndexError] outside any [try], and the exception leaves
    [main]; no error is logged and [main] does not return, where the
    claim has every unresolved lookup logged and followed by an early
    return, as the branch without setup does for the same two
    lookups. *)
Lemma C3_setup_lookup_escapes :
  lower "yes" = "yes"
  /\ last (snd (run unresolved_after_setup ["yes"]))
     = Some (EvAwait (_search "jess" EPISODE_MENTIONS))
  /\ lookup (w_node_search unresolved_after_setup (snd (run unresolved_after_setup ["yes"])))
     = Raise index_error
  /\ fst (run unresolved_after_setup ["yes"]) = Raise index_error
  /\ error_logs (snd (run unresolved_after_setup ["yes"])) = []
  /\ ~ logged_and_returned (run unresolved_after_setup ["yes"])
  /\ logged_and_returned (run unresolved_after_setup ["no"]).
Proof.
  split; [reflexivity|]. split; [reflexivity|]. split; [reflexivity|].
  split; [reflexivity|]. split; [reflexivity|]. split.
  - intros (H & _). discriminate.
  - unfold logged_and_returned. repeat split. eexists. reflexivity.
Qed.

End EarlyReturnFacts.

(** ** Product episodes *)

Module IngestFacts.
Import Py Eff Trace TraceFacts RunFacts Advanced Samples.

Lemma without_images_spec items : images_removed items (without_images items).
Proof.
  unfold images_removed, without_images. split.
  - induction items as [|[k v] rest IH]; cbn [List.filter fst].
    + constructor.
    + destruct (negb (String.eqb k "images")).
      * apply sublist_skip. exact IH.
      * apply sublist_cons. exact IH.
  - intros k v. rewrite filter_In. cbn [fst].
    rewrite negb_true_iff. 
    destruct (String.eqb_spec k "images") as [->|Hne].
    + split; [intros [_ H]; discriminate | intros [_ H]; contradiction].
    + tauto.
Qed.

Lemma without_images_no_images items : dict_mem "images" (without_images items) = false.
Proof.
  unfold dict_mem, without_images.
  induction items as [|[k v] rest IH]; [reflexivity|].
  cbn [List.filter fst].
  destruct (String.eqb k "images") eqn:Hk; cbn [negb].
  - exact IH.
  - cbn [existsb fst]. rewrite Hk. exact IH.
Qed.

(** The value kept for every other key is the one of the product. *)
Lemma without_images_get items k default :
  k <> "images" ->
  dict_get k (without_images items) default = dict_get k items default.
Proof.
  intros Hk. unfold without_images.
  induction items as [|[k' v] rest IH]; [reflexivity|].
  cbn [List.filter fst dict_get].
  destruct (String.eqb_spec k' "images") as [->|Hne]; cbn [negb dict_get].
  - destruct (String.eqb_spec "images" k) as [Heq|_]; [congruence | exact IH].
  - rewrite IH. reflexivity.
Qed.

Lemma adds_ingest_products W plist :
  (forall j items, plist !! j = Some (PDict items) ->
                   product_episode_event W (EvAwait (product_episode j items))) ->
  forall i rest, drop i plist = rest ->
  adds (product_episode_event W) (ingest W i rest).
Proof.
  intros Hp i rest. revert i.
  induction rest as [|product rest IH]; intros i Hdrop; cbn [ingest].
  - apply adds_ret.
  - assert (Hi : plist !! i = Some product).
    { rewrite <- (Nat.add_0_r i), <- lookup_drop, Hdrop. reflexivity. }
    destruct product as [ | | | | | |items]; try apply adds_raise.
    adds_step; [apply adds_await, Hp, Hi|].
    apply IH. rewrite (drop_S _ _ _ Hi) in Hdrop. now inversion Hdrop.
Qed.

Lemma adds_product_episodes W : adds (product_episode_event W) (setup_database W).
Proof.
  unfold setup_database.
  repeat (adds_step; [first [apply adds_emit | apply adds_await]; exact I|]).
  destruct (w_products_file W) as [file|] eqn:Hfile; [|adds_auto].
  apply adds_bind_ok; [apply adds_lift|].
  intros root (t1 & t1' & Hroot). unfold lift in Hroot. inversion Hroot; subst. clear Hroot.
  apply adds_bind_ok; [apply adds_lift|].
  intros products (t2 & t2' & Hprod). unfold lift in Hprod.
  inversion Hprod as [[Hp Ht]]. clear Hprod.
  apply adds_bind_ok; [apply adds_lift|].
  intros plist (t3 & t3' & Hit). unfold lift in Hit.
  inversion Hit as [[Hi Ht']]. clear Hit.
  adds_step.
  - apply adds_ingest_products with (plist := plist); [|reflexivity].
    intros j items Hj. unfold product_episode, product_episode_event.
    exists root, products, plist, j, items, (without_images items).
    split; [exact Hfile|]. split; [exact Hp|]. split; [exact Hi|].
    split; [exact Hj|]. split; [apply without_images_spec|].
    split; [apply without_images_no_images|].
    repeat split.
  - adds_auto.
Qed.

(** C10: every product episode that [setup_database] sends (an awaited
    [add_episode] with source [json]) belongs to a record of the loaded
    product list, and its body is the rendering of that record's
    key-value pairs without the [images] key, all other pairs kept as
    they are and in order; the rendered dict has no [images] key. *)
Theorem C10_product_episode_drops_images
    (W : world) (tr : trace) (n : pyval) (body d : string) :
  In (EvAwait (add_episode n body d json)) (snd (setup_database W tr)) ->
  In (EvAwait (add_episode n body d json)) tr
  \/ exists root products plist i items kept,
       w_products_file W = Some (Ok root)
       /\ subscript_products root = Ok products
       /\ iterate products = Ok plist
       /\ plist !! i = Some (PDict items)
       /\ images_removed items kept
       /\ dict_mem "images" kept = false
       /\ kept = without_images items
       /\ body = str (PDict kept)
       /\ n = dict_get "title" items (PStr ("Product " +:+ str_of_nat i)).
Proof.
  intros Hin.
  destruct (adds_product_episodes W tr) as (added & E & F).
  rewrite E in Hin. apply in_app_or in Hin. destruct Hin as [Hin | Hin]; [left; exact Hin|].
  right. rewrite Forall_forall in F. apply list_elem_of_In, F in Hin.
  cbn in Hin.
  destruct Hin as (root & products & plist & i & items & kept
                  & H1 & H2 & H3 & H4 & H5 & H6 & H7 & H8 & H9 & H10).
  exists root, products, plist, i, items, kept. tauto.
Qed.

Lemma C10_witness :
  In (EvAwait (add_episode (PStr "Wool Runner") "{'title': 'Wool Runner', 'price': 98}"
                 "ManyBirds products" json)) []
  \/ exists root products plist i items kept,
       w_products_file unresolved_after_setup = Some (Ok root)
       /\ subscript_products root = Ok products
       /\ iterate products = Ok plist
       /\ plist !! i = Some (PDict items)
       /\ images_removed items kept
       /\ dict_mem "images" kept = false
       /\ kept = without_images items
       /\ "{'title': 'Wool Runner', 'price': 98}" = str (PDict kept)
       /\ PStr "Wool Runner" = dict_get "title" items (PStr ("Product " +:+ str_of_nat i)).
Proof.
  apply (C10_product_episode_drops_images unresolved_after_setup []).
  cbn. repeat (first [left; reflexivity | right]).
Defined.

(** The second record of the sample catalog has no title: its episode
    is named after its index, and its body has lost [images] too. *)
Example untitled_product_episode :
  In (EvAwait (add_episode (PStr "Product 1") "{'vendor': 'ManyBirds'}"
                 "ManyBirds products" json))
     (snd (setup_database unresolved_after_setup [])).
Proof. cbn. repeat (first [left; reflexivity | right]). Qed.

End IngestFacts.

(** ** More on the formatting of facts *)

Module BulletFacts.
Import Py Eff Advanced StringFacts.

Lemma contains_char_append c a b :
  contains_char c (a +:+ b) = contains_char c a || contains_char c b.
Proof.
  induction a as [|x a IH]; [reflexivity|].
  rewrite append_cons. cbn [contains_char].
  destruct (Ascii.eqb c x); [reflexivity | exact IH].
Qed.

Lemma contains_char_join c sep parts :
  contains_char c sep = false ->
  Forall (fun p => contains_char c p = false) parts ->
  contains_char c (join sep parts) = false.
Proof.
  intros Hsep. induction 1 as [|p rest Hp _ IH]; [reflexivity|].
  cbn [join]. destruct rest as [|q rest]; [exact Hp|].
  rewrite !contains_char_append, Hp, Hsep, IH. reflexivity.
Qed.

(** X1: for a non-empty list of edges the result is the facts, each
    with its bullet in front, joined by the two characters backslash
    and n. *)
Theorem X1_facts_string_is_bulleted_join (e : EntityEdge) (es : list EntityEdge) :
  edges_to_facts_string (e :: es)
  = join bsn (map (fun x => "- " +:+ fact x) (e :: es)).
Proof. apply FactsString.edges_to_facts_string_bullets. Qed.

(** X2: the helper never produces a line break of its own: when no fact
    contains a newline character, neither does the result, however many
    facts there are. *)
Theorem X2_facts_string_adds_no_newline (es : list EntityEdge) :
  Forall (fun x => contains_char (ascii_of_nat 10) (fact x) = false) es ->
  contains_char (ascii_of_nat 10) (edges_to_facts_string es) = false.
Proof.
  intros H. unfold edges_to_facts_string.
  rewrite contains_char_append. cbn [contains_char orb Ascii.eqb].
  change (contains_char (ascii_of_nat 10) "- ") with false. cbn [orb].
  apply contains_char_join; [reflexivity|].
  induction H as [|x rest Hx _ IH]; constructor; assumption.
Qed.

Lemma X2_witness :
  contains_char (ascii_of_nat 10)
    (edges_to_facts_string [Samples.edge "wool"; Samples.edge "size 9"; Samples.edge "blue"])
  = false.
Proof.
  apply X2_facts_string_adds_no_newline. repeat constructor.
Defined.

(** X3: the result is never empty, so the fallback text of [chatbot]
    ([facts_string or 'No facts ...']) never replaces a facts string,
    not even the one of an empty search result. *)
Theorem X3_facts_string_never_falls_back (es : list EntityEdge) (fallback : string) :
  or_default (Some (edges_to_facts_string es)) fallback = edges_to_facts_string es
  /\ (2 <= String.length (edges_to_facts_string es))%nat.
Proof.
  unfold edges_to_facts_string. split.
  - reflexivity.
  - rewrite !append_cons. cbn [String.length]. lia.
Qed.

End BulletFacts.

(** ** Logging *)

Module LoggingFacts.
Import Py Eff Trace Logging.



(** The handler alone would let INFO through: it is the level of the
    root logger that stops the record. *)
Example handler_accepts_info :
  callHandlers (setup_logging pristine) (module_logger (setup_logging pristine))
    20 "INFO" "Chatbot node is executing."
  = ["__main__ - INFO - Chatbot node is executing." +:+ nl]
  /\ isEnabledFor (setup_logging pristine) (module_logger (setup_logging pristine)) 20
     = false.
Proof. split; reflexivity. Qed.

End LoggingFacts.

(** ** Routing after the agent node *)

Module GraphFacts.
Import Py Eff Trace Advanced Graph.

(** X5: after the agent node, when the last message is an
    [AIMessage], the graph goes to the tool node exactly when that
    message carries tool calls and ends otherwise, the label of
    [should_continue] being a key of the edge mapping.  On a last
    message of another kind, which has no [tool_calls],
    [should_continue] raises [AttributeError]; on an empty history it
    raises [IndexError]. *)
Theorem X5_routing_after_agent (state : State) :
  match last (messages state) with
  | Some m =>
      match kind m with
      | AIMessage =>
          should_continue state
          = Ok (match tool_calls m with [] => "end" | _ => "continue" end)
          /\ after_agent state
             = Ok (Some (match tool_calls m with [] => END | _ => tools end))
      | k =>
          should_continue state
          = Raise (Exn AttributeError
                     ("'" +:+ kind_name k +:+ "' object has no attribute 'tool_calls'"))
          /\ after_agent state
             = Raise (Exn AttributeError
                        ("'" +:+ kind_name k +:+ "' object has no attribute 'tool_calls'"))
      end
  | None =>
      messages state = []
      /\ should_continue state = Raise index_error
      /\ after_agent state = Raise index_error
  end.
Proof.
  unfold after_agent, should_continue, get_tool_calls, last_item.
  destruct (last (messages state)) as [m|] eqn:Hl.
  - destruct (kind m); try (split; reflexivity).
    destruct (tool_calls m); split; reflexivity.
  - apply last_None in Hl. repeat split. exact Hl.
Qed.

Example human_message_has_no_tool_calls :
  should_continue Samples.sample_state
  = Raise (Exn AttributeError "'HumanMessage' object has no attribute 'tool_calls'").
Proof. reflexivity. Qed.

End GraphFacts.

(** ** The empty-string check of the beginner script *)

Module SettingsFacts.
Import Py Eff Config.

(** X6: the beginner script raises its [ValueError] exactly when one of
    the three variables is set to the empty string (an unset variable
    takes its default and passes); the advanced script has no such
    check and builds its client with the empty value. *)
Theorem X6_value_error_iff_empty_setting (environ : gmap string string) :
  (beginner_client environ
   = Raise (Exn ValueError "NEO4J_URI, NEO4J_USER, and NEO4J_PASSWORD must be set")
   <-> (environ !! "NEO4J_URI" = Some "" \/ environ !! "NEO4J_USER" = Some ""
        \/ environ !! "NEO4J_PASSWORD" = Some ""))
  /\ (forall g, beginner_client environ = Ok g <->
                (g = advanced_client environ
                 /\ environ !! "NEO4J_URI" <> Some "" /\ environ !! "NEO4J_USER" <> Some ""
                 /\ environ !! "NEO4J_PASSWORD" <> Some "")).
Proof.
  unfold beginner_client, advanced_client, py_not_str,
    neo4j_uri, neo4j_user, neo4j_password, environ_get.
  destruct (environ !! "NEO4J_URI") as [[|c u]|];
    destruct (environ !! "NEO4J_USER") as [[|c' n]|];
    destruct (environ !! "NEO4J_PASSWORD") as [[|c'' w]|];
    cbn; (split; [split; [intros H; try discriminate; auto
                         | intros [H | [H | H]]; try discriminate; reflexivity]
                 | intros g; split;
                   [intros H; try discriminate; inversion H;
                    repeat split; discriminate
                   | intros (-> & H1 & H2 & H3); try reflexivity; congruence]]).
Qed.

End SettingsFacts.

(** ** More on the chatbot callback *)

Module TurnPersistFacts.
Import Py Eff Trace TraceFacts RunFacts Advanced Views.

Lemma last_item_some {A} (xs : list A) (x : A) : last xs = Some x -> last_item xs = Ok x.
Proof. unfold last_item. intros ->. reflexivity. Qed.

Lemma last_some_nonempty {A} (xs : list A) (x : A) :
  last xs = Some x -> (0 <? length xs)%nat = true.
Proof. destruct xs; [discriminate | reflexivity]. Qed.

(** X7: on an empty history [chatbot] does not search; it calls the LLM
    with the system message alone, built with the fallback text, and
    then raises [IndexError] at [state["messages"][-1]]: no task is
    created and nothing is returned. *)
Theorem X7_chatbot_empty_history
    (W : world) (state : State) (tr : trace) (response : Message) :
  messages state = [] ->
  w_llm W (tr ++ [EvLog INFO "Chatbot node is executing.";
                  EvAwait (llm_ainvoke [system_message None])]) = Ok response ->
  chatbot W state tr
  = (Raise index_error,
     tr ++ [EvLog INFO "Chatbot node is executing.";
            EvAwait (llm_ainvoke [system_message None]);
            EvLog INFO ("LLM generated response: " +:+ content_str (content response))]).
Proof.
  intros Hm Hllm.
  unfold chatbot, bind, log, emit, await, lift, ret, last_item.
  rewrite Hm. cbn [length Nat.ltb Nat.leb last].
  fold (system_message None).
  rewrite <- !app_assoc. cbn [app]. rewrite Hllm.
  rewrite <- !app_assoc. reflexivity.
Qed.

Lemma X7_witness :
  chatbot talkative
    {| messages := []; user_name := "jess"; user_node_uuid := Some "n-7";
       manybirds_node_uuid := Some "n-7" |} []
  = (Raise index_error,
     [] ++ [EvLog INFO "Chatbot node is executing.";
            EvAwait (llm_ainvoke [system_message None]);
            EvLog INFO ("LLM generated response: "
                        +:+ content_str
                              (content {| kind := AIMessage; content := CStr "Size?";
                                          tool_calls := [] |}))]).
Proof.
  apply (X7_chatbot_empty_history talkative
           {| messages := []; user_name := "jess"; user_node_uuid := Some "n-7";
              manybirds_node_uuid := Some "n-7" |} []); reflexivity.
Defined.

(** X8: a turn that goes well.  With a last message [m], facts [es]
    from the search centred on the user node (five results asked) and a
    response from the LLM, [chatbot] returns the one-element list with
    the response; the LLM saw the system message built from the facts
    followed by the whole history; and the task created persists
    [m] under the user's name followed by the response under
    [SalesBot]. *)
Theorem X8_chatbot_turn
    (W : world) (state : State) (tr : trace)
    (m response : Message) (es : list EntityEdge) :
  last (messages state) = Some m ->
  w_search W (tr ++ [EvLog INFO "Chatbot node is executing.";
                     EvAwait (search (graphiti_query state m) (user_node_uuid state) (Some 5))])
  = Ok es ->
  w_llm W (tr ++ [EvLog INFO "Chatbot node is executing.";
                  EvAwait (search (graphiti_query state m) (user_node_uuid state) (Some 5));
                  EvLog INFO ("Retrieved facts for context: " +:+ bsn
                              +:+ edges_to_facts_string es);
                  EvAwait (llm_ainvoke
                             (system_message (Some (edges_to_facts_string es))
                              :: messages state))])
  = Ok response ->
  chatbot W state tr
  = (Ok [response],
     tr ++ [EvLog INFO "Chatbot node is executing.";
            EvAwait (search (graphiti_query state m) (user_node_uuid state) (Some 5));
            EvLog INFO ("Retrieved facts for context: " +:+ bsn
                        +:+ edges_to_facts_string es);
            EvAwait (llm_ainvoke
                       (system_message (Some (edges_to_facts_string es))
                        :: messages state));
            EvLog INFO ("LLM generated response: " +:+ content_str (content response));
            EvCreateTask (turn_episode state m response)]).
Proof.
  intros Hlast Hsearch Hllm.
  unfold graphiti_query, system_message, turn_episode in *.
  unfold chatbot.
  rewrite (last_some_nonempty _ _ Hlast), (last_item_some _ _ Hlast).
  unfold create_task, bind, log, emit, await, lift, ret.
  rewrite <- !app_assoc. cbn [app]. rewrite Hsearch.
  rewrite <- !app_assoc. cbn [app]. rewrite Hllm.
  rewrite <- !app_assoc. reflexivity.
Qed.

Lemma X8_witness :
  chatbot talkative Samples.sample_state []
  = (Ok [{| kind := AIMessage; content := CStr "Size?"; tool_calls := [] |}],
     [] ++ [EvLog INFO "Chatbot node is executing.";
            EvAwait (search "jess: size 9?" (Some "u-1") (Some 5));
            EvLog INFO ("Retrieved facts for context: " +:+ bsn +:+ "- ");
            EvAwait (llm_ainvoke (system_message (Some "- ") :: messages Samples.sample_state));
            EvLog INFO "LLM generated response: Size?";
            EvCreateTask
              (add_episode (PStr "Chatbot Response")
                 ("jess: size 9?" +:+ bsn +:+ "SalesBot: Size?") "Chatbot" message)]).
Proof.
  apply (X8_chatbot_turn talkative Samples.sample_state []
           {| kind := HumanMessage; content := CStr "size 9?"; tool_calls := [] |}
           {| kind := AIMessage; content := CStr "Size?"; tool_calls := [] |} []);
    reflexivity.
Defined.

(** X9: [chatbot] creates the persisting task exactly when it returns
    normally, and then exactly one: a turn whose search or LLM call
    fails, or whose history is empty, is never persisted. *)
Theorem X9_task_created_iff_turn_succeeds (W : world) (state : State) (tr : trace) :
  exists added,
    snd (chatbot W state tr) = tr ++ added
    /\ match fst (chatbot W state tr) with
       | Ok _ => length (tasks_created added) = 1%nat
       | Raise _ => tasks_created added = []
       end.
Proof.
  unfold chatbot, last_item.
  destruct (last (messages state)) as [m|] eqn:Hlast.
  - rewrite (last_some_nonempty _ _ Hlast).
    unfold create_task, bind, log, emit, await, lift, ret.
    rewrite <- !app_assoc. cbn [app].
    destruct (w_search W _) as [es|e].
    + rewrite <- !app_assoc. cbn [app].
      destruct (w_llm W _) as [response|e].
      * rewrite <- !app_assoc. cbn [app fst snd].
        eexists. split; [reflexivity|]. reflexivity.
      * cbn [fst snd]. eexists. split; [reflexivity|]. reflexivity.
    + cbn [fst snd]. eexists. split; [reflexivity|]. reflexivity.
  - apply last_None in Hlast. rewrite Hlast. cbn [length Nat.ltb Nat.leb].
    unfold create_task, bind, log, emit, await, lift, ret.
    rewrite <- !app_assoc. cbn [app].
    destruct (w_llm W _) as [response|e].
    + rewrite <- !app_assoc. cbn [app fst snd].
      eexists. split; [reflexivity|]. reflexivity.
    + cbn [fst snd]. eexists. split; [reflexivity|]. reflexivity.
Qed.

End TurnPersistFacts.

(** ** More on the database setup *)

Module SetupFacts.
Import Py Eff Trace TraceFacts RunFacts Advanced Views.

(** X10: [setup_database] wipes the graph before anything else: in
    every world its first external call is [clear_data], also when the
    product file turns out to be missing or a later step fails. *)
Theorem X10_setup_clears_the_graph_first (W : world) (tr : trace) :
  exists more,
    snd (setup_database W tr)
    = tr ++ [EvLog INFO "Setting up the database. This may take a moment...";
             EvLog WARNING "This will clear all existing data in the graph!";
             EvAwait clear_data] ++ more.
Proof.
  unfold setup_database, log.
  change (bind (emit ?e) ?k tr) with (k tt (tr ++ [e])). cbv beta.
  change (bind (emit ?e) ?k (?t ++ [?x])) with (k tt ((t ++ [x]) ++ [e])). cbv beta.
  match goal with |- context [bind (await clear_data ?o) ?k ?t] =>
    destruct (PromptFacts.bind_extends (await clear_data o) k) with (tr := t) as (more & ->)
  end.
  - intros a. apply adds_True with (P := setup_event).
    adds_auto. apply PromptFacts.adds_ingest. intros; exact I.
  - exists more.
    change (snd (await clear_data ?o ?t)) with (t ++ [EvAwait clear_data]).
    rewrite <- !app_assoc. reflexivity.
Qed.

(** X11: when clearing the graph or building the indices fails, the
    exception leaves [setup_database] at once: the product file is not
    looked at and no episode is added. *)
Theorem X11_setup_stops_when_schema_calls_fail (W : world) (tr : trace) (e : exn) :
  w_clear_data W
    (tr ++ [EvLog INFO "Setting up the database. This may take a moment...";
            EvLog WARNING "This will clear all existing data in the graph!";
            EvAwait clear_data]) = Raise e
  \/ (w_clear_data W
        (tr ++ [EvLog INFO "Setting up the database. This may take a moment...";
                EvLog WARNING "This will clear all existing data in the graph!";
                EvAwait clear_data]) = Ok tt
      /\ w_build_indices W
           (tr ++ [EvLog INFO "Setting up the database. This may take a moment...";
                   EvLog WARNING "This will clear all existing data in the graph!";
                   EvAwait clear_data; EvAwait build_indices_and_constraints]) = Raise e) ->
  fst (setup_database W tr) = Raise e
  /\ episodes_added (snd (setup_database W tr)) = episodes_added tr
  /\ error_logs (snd (setup_database W tr)) = error_logs tr.
Proof.
  intros H.
  unfold setup_database, bind, log, emit, await.
  rewrite <- !app_assoc. cbn [app].
  destruct H as [H | [H1 H2]].
  - rewrite H. cbn [fst snd]. unfold episodes_added, error_logs.
    rewrite !omap_app. cbn. rewrite !app_nil_r. auto.
  - rewrite H1. rewrite <- ?app_assoc. cbn [app]. rewrite H2.
    cbn [fst snd]. unfold episodes_added, error_logs.
    rewrite !omap_app. cbn. rewrite !app_nil_r. auto.
Qed.

Lemma X11_witness :
  fst (setup_database unreachable []) = Raise (Exn RuntimeError "connection refused")
  /\ episodes_added (snd (setup_database unreachable [])) = episodes_added []
  /\ error_logs (snd (setup_database unreachable [])) = error_logs [].
Proof.
  apply (X11_setup_stops_when_schema_calls_fail unreachable []
           (Exn RuntimeError "connection refused")).
  left. reflexivity.
Defined.

Lemma ingest_sent W products :
  forall i tr, exists sent later,
    planned_episodes i products = sent ++ later
    /\ snd (ingest W i products tr) = tr ++ map EvAwait sent
    /\ match fst (ingest W i products tr) with
       | Ok _ => later = [] /\ length sent = length products
       | Raise _ => True
       end.
Proof.
  induction products as [|product rest IH]; intros i tr.
  - exists [], []. cbn. rewrite app_nil_r. auto.
  - cbn [ingest planned_episodes].
    destruct product as [ | | | | | |items];
      try solve [exists [], []; cbn; rewrite app_nil_r; auto].
    unfold bind, await.
    destruct (w_add_episode W _) as [u|e].
    + destruct (IH (S i) (tr ++ [EvAwait (product_episode i items)]))
        as (sent & later & Hp & Ht & Hr).
      exists (product_episode i items :: sent). exists later.
      split; [rewrite Hp; reflexivity|].
      split; [rewrite Ht, <- app_assoc; reflexivity|].
      destruct (fst (ingest W (S i) rest _)); [|exact I].
      destruct Hr as [-> Hl]. split; [reflexivity|]. cbn [length]. rewrite Hl. reflexivity.
    + exists [product_episode i items], (planned_episodes (S i) rest).
      cbn [fst snd map]. auto.
Qed.





(** A store that rejects every write: the first product is tried, the
    second is not. *)
Example ingestion_stops_after_rejected_write :
  ingest Samples.failing_stream 0
    [PDict [("title", PStr "Wool Runner")]; PDict [("title", PStr "Tree Dasher")]] []
  = (Raise (Exn RuntimeError "write failed"),
     [EvAwait (product_episode 0 [("title", PStr "Wool Runner")])]).
Proof. reflexivity. Qed.

(** X13: [setup_database] returns [(None, None)] exactly when the
    product file is missing, and two identifiers otherwise; it never
    returns one identifier with one [None]. *)
Theorem X13_setup_result_shape
    (W : world) (tr tr' : trace) (u m : option string) :
  setup_database W tr = (Ok (u, m), tr') ->
  (w_products_file W = None /\ u = None /\ m = None)
  \/ (w_products_file W <> None /\ is_Some u /\ is_Some m).
Proof.
  unfold setup_database. intros H.
  repeat (apply bind_ok_inv in H; destruct H as (? & ? & _ & H)).
  destruct (w_products_file W).
  - repeat (apply bind_ok_inv in H; destruct H as (? & ? & _ & H)).
    inversion H; subst. right.
    split; [discriminate|]. split; eexists; reflexivity.
  - repeat (apply bind_ok_inv in H; destruct H as (? & ? & _ & H)).
    inversion H; subst. left. auto.
Qed.

Lemma X13_witness :
  (w_products_file talkative = None /\ Some "n-7" = None /\ Some "n-7" = None)
  \/ (w_products_file talkative <> None /\ is_Some (Some "n-7") /\ is_Some (Some "n-7")).
Proof.
  apply (X13_setup_result_shape talkative [] (snd (setup_database talkative []))).
  reflexivity.
Defined.

End SetupFacts.

(** ** More on the chat session *)

Module SessionFacts.
Import Py Eff Trace TraceFacts RunFacts Advanced Views.

Lemma run_lookup_error_first W l rest e :
  lower l <> "yes" ->
  caught_by_lookup (exn_cls e) = false ->
  lookup (w_node_search W (first_lookup l)) = Raise e ->
  run W (l :: rest) = (Raise e, first_lookup l).
Proof.
  intros Hno Hc H.
  unfold run, main. unfold bind at 1. cbn [input app].
  unfold bind at 1. unfold resolve_nodes.
  destruct (String.eqb_spec (lower l) "yes") as [Hy|_]; [contradiction|].
  unfold try_except. unfold bind at 1. unfold await at 1. cbn [app].
  unfold lookup, first_lookup in H.
  destruct (w_node_search W _) as [x|e0].
  - unfold bind at 1. unfold lift at 1. rewrite H, Hc. reflexivity.
  - inversion H; subst. rewrite Hc. reflexivity.
Qed.

Lemma run_lookup_error_second W l rest u e :
  lower l <> "yes" ->
  caught_by_lookup (exn_cls e) = false ->
  lookup (w_node_search W (first_lookup l)) = Ok u ->
  lookup (w_node_search W (second_lookup l)) = Raise e ->
  run W (l :: rest) = (Raise e, second_lookup l).
Proof.
  intros Hno Hc H1 H2.
  unfold run, main. unfold bind at 1. cbn [input app].
  unfold bind at 1. unfold resolve_nodes.
  destruct (String.eqb_spec (lower l) "yes") as [Hy|_]; [contradiction|].
  unfold try_except. unfold bind at 1. unfold await at 1. cbn [app].
  unfold lookup, second_lookup, first_lookup in H1, H2. cbn [app] in H2.
  destruct (w_node_search W [_; _]) as [x|e0]; [|discriminate].
  unfold bind at 1. unfold lift at 1. rewrite H1.
  unfold bind at 1. unfold await at 1. cbn [app].
  destruct (w_node_search W [_; _; _]) as [y|e1].
  - unfold bind at 1. unfold lift at 1. rewrite H2, Hc. reflexivity.
  - inversion H2; subst. rewrite Hc. reflexivity.
Qed.

(** X14: on the path without setup only [IndexError] and
    [AttributeError] are turned into the logged early return; any other
    exception of a node lookup (a connection error, say) leaves [main]
    as it is, with nothing logged, no chat prompt and no [close]. *)
Theorem X14_other_lookup_errors_propagate
    (W : world) (l : string) (rest : list string) (e : exn) :
  lower l <> "yes" ->
  caught_by_lookup (exn_cls e) = false ->
  lookup (w_node_search W (first_lookup l)) = Raise e
  \/ ((exists u, lookup (w_node_search W (first_lookup l)) = Ok u)
      /\ lookup (w_node_search W (second_lookup l)) = Raise e) ->
  fst (run W (l :: rest)) = Raise e
  /\ error_logs (snd (run W (l :: rest))) = []
  /\ chat_lines (snd (run W (l :: rest))) = []
  /\ close_calls (snd (run W (l :: rest))) = 0%nat.
Proof.
  intros Hno Hc [H | [[u H1] H2]].
  - rewrite (run_lookup_error_first W l rest e Hno Hc H). repeat split.
  - rewrite (run_lookup_error_second W l rest u e Hno Hc H1 H2). repeat split.
Qed.

Lemma X14_witness :
  fst (run unreachable ["no"; "hello"]) = Raise (Exn RuntimeError "connection refused")
  /\ error_logs (snd (run unreachable ["no"; "hello"])) = []
  /\ chat_lines (snd (run unreachable ["no"; "hello"])) = []
  /\ close_calls (snd (run unreachable ["no"; "hello"])) = 0%nat.
Proof.
  apply (X14_other_lookup_errors_propagate unreachable "no" ["hello"]
           (Exn RuntimeError "connection refused")).
  - discriminate.
  - reflexivity.
  - left. reflexivity.
Defined.

Lemma show_value_text value tr :
  value <> Some [] ->
  show_value value tr = (Ok tt, tr ++ map (fun s => EvPrint s "") (value_text value)).
Proof.
  intros Hv. destruct value as [msgs|]; cbn [show_value value_text].
  - unfold bind, lift, last_item.
    destruct (last msgs) as [m|] eqn:Hl.
    + destruct (kind m), (content m); cbn; rewrite ?app_nil_r; reflexivity.
    + apply last_None in Hl. subst. contradiction.
  - cbn. rewrite app_nil_r. reflexivity.
Qed.

Lemma for_each_value_text values tr :
  Forall (fun v => v <> Some []) values ->
  for_each show_value values tr
  = (Ok tt, tr ++ map (fun s => EvPrint s "") (flat_map value_text values)).
Proof.
  intros H. revert tr. induction H as [|v rest Hv _ IH]; intros tr.
  - cbn. rewrite app_nil_r. reflexivity.
  - cbn [for_each flat_map]. unfold bind. rewrite (show_value_text _ _ Hv), IH.
    rewrite map_app, app_assoc. reflexivity.
Qed.

Lemma for_each_stream_text events tr :
  Forall (Forall (fun v => v <> Some [])) events ->
  for_each (for_each show_value) events tr
  = (Ok tt, tr ++ map (fun s => EvPrint s "") (stream_text events)).
Proof.
  intros H. revert tr. induction H as [|ev rest Hev _ IH]; intros tr.
  - cbn. rewrite app_nil_r. reflexivity.
  - cbn [for_each]. unfold bind. rewrite (for_each_value_text _ _ Hev), IH.
    unfold stream_text. cbn [flat_map]. rewrite map_app, app_assoc. reflexivity.
Qed.

(** X16: what a turn shows.  When the stream ends without failure (and
    no value has an empty [messages] list), the turn prints
    [Assistant: ], then for every value of every event the content of
    its last message if that is an [AIMessage] with text content, all
    on one line, then the line end; messages that are not last in
    their list, and tool or human messages, are not shown. *)
Theorem X16_turn_shows_last_ai_messages
    (W : world) (us : UserState) (th line : string) (tr : trace)
    (events : list StreamEvent) :
  Forall (Forall (fun v => v <> Some [])) events ->
  w_astream W (tr ++ [EvPrint "Assistant: " "";
                      EvAwait (astream (graph_state us line) th)]) = (events, None) ->
  turn W us th line tr
  = (Ok tt,
     tr ++ [EvPrint "Assistant: " ""; EvAwait (astream (graph_state us line) th)]
        ++ map (fun s => EvPrint s "") (stream_text events) ++ [EvPrint "" nl]).
Proof.
  intros Hwf Hs.
  unfold turn. unfold bind at 1. unfold print_end, emit.
  unfold try_except. unfold bind at 1. unfold stream_turn.
  rewrite <- !app_assoc. cbn [app]. rewrite Hs.
  unfold bind at 1. rewrite (for_each_stream_text _ _ Hwf).
  unfold ret, print, emit. rewrite <- !app_assoc. reflexivity.
Qed.

Lemma X16_witness :
  turn talkative
    {| us_user_name := "jess"; us_user_node_uuid := Some "n-7";
       us_manybirds_node_uuid := Some "n-7" |} "t-1" "hello" []
  = (Ok tt,
     [] ++ [EvPrint "Assistant: " "";
            EvAwait (astream (graph_state
                                {| us_user_name := "jess"; us_user_node_uuid := Some "n-7";
                                   us_manybirds_node_uuid := Some "n-7" |} "hello") "t-1")]
        ++ map (fun s => EvPrint s "")
             (stream_text (fst (w_astream talkative []))) ++ [EvPrint "" nl]).
Proof.
  apply (X16_turn_shows_last_ai_messages talkative
           {| us_user_name := "jess"; us_user_node_uuid := Some "n-7";
              us_manybirds_node_uuid := Some "n-7" |} "t-1" "hello" []
           (fst (w_astream talkative []))).
  - repeat constructor; discriminate.
  - reflexivity.
Defined.

Example talkative_turn_text :
  stream_text (fst (w_astream talkative [])) = ["Which size?"].
Proof. reflexivity. Qed.

Lemma chat_lines_app tr1 tr2 : chat_lines (tr1 ++ tr2) = chat_lines tr1 ++ chat_lines tr2.
Proof. unfold chat_lines. apply omap_app. Qed.

Lemma setup_events_quiet added :
  Forall setup_event added -> chat_lines added = [] /\ close_calls added = 0%nat.
Proof.
  intros F. split.
  - apply omap_none. eapply Forall_impl; [exact F|].
    intros [ | | | [] | ]; cbn; tauto.
  - apply close_calls_none. eapply Forall_impl; [exact F|].
    intros [ | | | [] | ]; cbn; tauto.
Qed.

(** The session part of [main]: greeting, chat loop, [close], farewell. *)
Lemma session_trace W us th stdin T :
  exists aL tail,
    snd ((print (bsn +:+ "--- ShoeBot is ready! ---") ;;
          print "Type 'exit' to end the conversation." ;;
          print "Hello, how can I help you find shoes today?" ;;
          chat_loop W us th stdin ;;
          await close (w_close W) ;;
          print (bsn +:+ "--- Conversation ended ---"))%eff T)
    = T ++ [EvPrint (bsn +:+ "--- ShoeBot is ready! ---") nl;
            EvPrint "Type 'exit' to end the conversation." nl;
            EvPrint "Hello, how can I help you find shoes today?" nl] ++ aL ++ tail
    /\ close_calls aL = 0%nat
    /\ chat_lines tail = []
    /\ (close_calls tail <= 1)%nat
    /\ chat_lines aL <> []
    /\ (close_calls tail = 1%nat <->
        exists line, last (chat_lines aL) = Some (Some line) /\ lower line = "exit").
Proof.
  unfold print.
  change (bind (emit ?e) ?k T) with (k tt (T ++ [e])). cbv beta.
  change (bind (emit ?e) ?k (?t ++ [?x])) with (k tt ((t ++ [x]) ++ [e])). cbv beta.
  change (bind (emit ?e) ?k (?t ++ [?x])) with (k tt ((t ++ [x]) ++ [e])). cbv beta.
  rewrite <- !app_assoc. cbn [app].
  set (T2 := T ++ [_; _; _]).
  destruct (PromptFacts.chat_loop_sentinel W us th stdin T2) as (aL & EL & N & I & _ & _).
  assert (FL : adds (fun e => is_close_call e = false) (chat_loop W us th stdin)).
  { apply LoopFacts.adds_chat_loop; intros; reflexivity. }
  destruct (FL T2) as (aL' & EL' & FC).
  rewrite EL in EL'. apply app_inv_head in EL'. subst aL'.
  apply close_calls_none in FC.
  unfold bind at 1.
  destruct (chat_loop W us th stdin T2) as [[[]|e] T3]; cbn [fst snd] in EL, I; subst T3.
  - unfold bind, await, emit.
    destruct (w_close W _) as [[]|e]; cbn [snd].
    + exists aL, [EvAwait close; EvPrint (bsn +:+ "--- Conversation ended ---") nl].
      split; [unfold T2; rewrite <- !app_assoc; reflexivity|].
      split; [exact FC|]. split; [reflexivity|]. split; [cbn; lia|].
      split; [exact N|]. split; [intros _; apply I; reflexivity | reflexivity].
    + exists aL, [EvAwait close].
      split; [unfold T2; rewrite <- !app_assoc; reflexivity|].
      split; [exact FC|]. split; [reflexivity|]. split; [cbn; lia|].
      split; [exact N|]. split; [intros _; apply I; reflexivity | reflexivity].
  - exists aL, []. cbn [snd].
    split; [unfold T2; rewrite app_nil_r, <- !app_assoc; reflexivity|].
    split; [exact FC|]. split; [reflexivity|]. split; [cbn; lia|].
    split; [exact N|]. split; [discriminate|].
    intros H. apply I in H. discriminate.
Qed.

(** X17: [main] calls [close] at most once, and it calls it exactly
    when the chat loop was left through the sentinel, that is when the
    last line read at the chat prompt, lowercased, is [exit].  End of
    input, an exception that the loop does not catch, and the early
    returns all leave the connection open. *)
Theorem X17_close_iff_sentinel (W : world) (stdin : list string) :
  (close_calls (snd (run W stdin)) <= 1)%nat
  /\ (close_calls (snd (run W stdin)) = 1%nat <->
      exists line,
        last (chat_lines (snd (run W stdin))) = Some (Some line) /\ lower line = "exit").
Proof.
  destruct stdin as [|l rest].
  - cbn. split; [lia|]. split; [discriminate|]. intros (line & H & _). discriminate.
  - unfold run.
    pose (K := fun ids : option (option string * option string) =>
                 match ids with
                 | None => ret tt
                 | Some (user_uuid, manybirds_uuid) =>
                     let thread_id := w_uuid4_hex W in
                     let user_state :=
                       {| us_user_name := "jess";
                          us_user_node_uuid := user_uuid;
                          us_manybirds_node_uuid := manybirds_uuid |} in
                     (print (bsn +:+ "--- ShoeBot is ready! ---") ;;
                      print "Type 'exit' to end the conversation." ;;
                      print "Hello, how can I help you find shoes today?" ;;
                      chat_loop W user_state thread_id rest ;;
                      await close (w_close W) ;;
                      print (bsn +:+ "--- Conversation ended ---"))%eff
                 end).
    assert (Hm : main W (l :: rest) []
                 = bind (resolve_nodes W l) K [EvInput setup_prompt (Some l)])
      by reflexivity.
    rewrite Hm. clear Hm. unfold bind.
    destruct (PromptFacts.adds_resolve_nodes W l [EvInput setup_prompt (Some l)])
      as (a1 & E1 & F1).
    apply setup_events_quiet in F1. destruct F1 as [Q1 C1].
    assert (Q0 : chat_lines ([EvInput setup_prompt (Some l)] ++ a1) = []).
    { rewrite chat_lines_app, Q1. reflexivity. }
    assert (C0 : close_calls ([EvInput setup_prompt (Some l)] ++ a1) = 0%nat).
    { rewrite close_calls_app, C1. reflexivity. }
    destruct (resolve_nodes W l [EvInput setup_prompt (Some l)]) as [[[[u m]|]|e] T1];
      cbn [snd] in E1; subst T1.
    + unfold K.
      destruct (session_trace W
                  {| us_user_name := "jess"; us_user_node_uuid := u;
                     us_manybirds_node_uuid := m |}
                  (w_uuid4_hex W) rest ([EvInput setup_prompt (Some l)] ++ a1))
        as (aL & tail & E & CL & QT & Cle & N & I).
      cbv zeta. rewrite E.
      assert (Qp : chat_lines [EvInput setup_prompt (Some l)] = []) by reflexivity.
      assert (Cp : close_calls [EvInput setup_prompt (Some l)] = 0%nat) by reflexivity.
      assert (Qg : chat_lines
                     [EvPrint (bsn +:+ "--- ShoeBot is ready! ---") nl;
                      EvPrint "Type 'exit' to end the conversation." nl;
                      EvPrint "Hello, how can I help you find shoes today?" nl] = [])
        by reflexivity.
      assert (Cg : close_calls
                     [EvPrint (bsn +:+ "--- ShoeBot is ready! ---") nl;
                      EvPrint "Type 'exit' to end the conversation." nl;
                      EvPrint "Hello, how can I help you find shoes today?" nl] = 0%nat)
        by reflexivity.
      rewrite !close_calls_app, !chat_lines_app, Cp, Qp, C1, Q1, Cg, Qg, CL, QT.
      rewrite !app_nil_r. cbn [app Nat.add]. split; [exact Cle | exact I].
    + unfold K, ret. cbn [snd]. rewrite C0, Q0.
      split; [lia|]. split; [discriminate|]. intros (line & H & _). discriminate.
    + cbn [snd]. rewrite C0, Q0.
      split; [lia|]. split; [discriminate|]. intros (line & H & _). discriminate.
Qed.

End SessionFacts.

(** ** More on the beginner script *)

Module BeginnerFacts.
Import Py Eff Trace TraceFacts RunFacts Views StringFacts.

(** X18: the beginner script builds its client before the [try]: when
    the constructor raises, the exception leaves [main] at once and
    [close] is not called.  Once the client is built, [close] is called
    exactly once in every world, after everything the body did; when
    [close] succeeds the outcome of [main] is the outcome of the body
    (an exception of the body is raised again after the cleanup), and
    when [close] itself fails its exception is the one that leaves
    [main]. *)
Theorem X18_beginner_closes_once_and_reraises (W : world) (client : res unit) :
  match client with
  | Raise e => Beginner.main W client [] = (Raise e, [])
  | Ok _ =>
      close_calls (snd (Beginner.main W client [])) = 1%nat
      /\ close_calls (snd (Beginner.main_body W [])) = 0%nat
      /\ match w_close W (snd (Beginner.main_body W []) ++ [EvAwait close]) with
         | Ok _ =>
             Beginner.main W client []
             = (fst (Beginner.main_body W []),
                snd (Beginner.main_body W [])
                ++ [EvAwait close; EvPrint (nl +:+ "Connection closed") nl])
         | Raise e =>
             Beginner.main W client []
             = (Raise e, snd (Beginner.main_body W []) ++ [EvAwait close])
         end
  end.
Proof.
  destruct client as [[]|e]; [|reflexivity].
  change (Beginner.main W (Ok tt) []) with (Beginner.run W).
  split; [apply CloseFacts.beginner_closes_once|].
  split.
  - destruct (CloseFacts.beginner_body_never_closes W []) as (added & E & F).
    rewrite E. apply close_calls_none, F.
  - rewrite CloseFacts.beginner_run_unfold. unfold try_finally.
    destruct (Beginner.main_body W []) as [r body_tr]. cbn [fst snd].
    unfold bind, await, print, emit.
    destruct (w_close W _) as [u|e].
    + rewrite <- app_assoc. reflexivity.
    + reflexivity.
Qed.

(** The constructor refuses the connection settings: nothing else
    happens. *)
Example beginner_without_client :
  Beginner.main Samples.empty_graph (Raise (Exn ValueError "bad URI")) []
  = (Raise (Exn ValueError "bad URI"), [])
  /\ close_calls (snd (Beginner.main Samples.empty_graph
                         (Raise (Exn ValueError "bad URI")) [])) = 0%nat.
Proof. split; reflexivity. Qed.

Lemma len_append (a b : string) : len (a +:+ b) = (len a + len b)%nat.
Proof.
  induction a as [|x a IH]; [reflexivity|].
  rewrite append_cons. cbn [len]. rewrite IH.
  destruct (is_continuation x); reflexivity.
Qed.

Lemma len_slice_to (n : nat) (s : string) : len (slice_to n s) = Nat.min n (len s).
Proof.
  revert n. induction s as [|c s IH]; intros n.
  - cbn. lia.
  - cbn [slice_to len]. destruct (is_continuation c) eqn:Hc.
    + cbn [len]. rewrite Hc. apply IH.
    + destruct n as [|n]; [reflexivity|].
      cbn [len]. rewrite Hc, IH. reflexivity.
Qed.

(** X19: the summary line of a node, counted in characters as Python
    counts them: a summary of at most 100 characters is shown as it is,
    a longer one as its first 100 characters followed by three dots,
    103 characters in all; [print_node] prints that text after
    [Content Summary: ]. *)
Theorem X19_node_summary_is_truncated (node : EntityNode) (tr : trace) :
  In (EvPrint ("Content Summary: " +:+ node_summary (summary node)) nl)
     (snd (Beginner.print_node node tr))
  /\ (len (node_summary (summary node)) <= 103)%nat
  /\ ((len (summary node) <= 100)%nat ->
      node_summary (summary node) = summary node)
  /\ ((100 < len (summary node))%nat ->
      node_summary (summary node) = slice_to 100 (summary node) +:+ "..."
      /\ len (slice_to 100 (summary node)) = 100%nat
      /\ len (node_summary (summary node)) = 103%nat).
Proof.
  split.
  - unfold Beginner.print_node, Beginner.print_attribute, print.
    change (bind (emit ?e) ?k tr) with (k tt (tr ++ [e])). cbv beta.
    change (bind (emit ?e) ?k (?t ++ [?x])) with (k tt ((t ++ [x]) ++ [e])). cbv beta zeta.
    fold (node_summary (summary node)).
    match goal with |- context [bind (emit ?e) ?k ?t] =>
      destruct (PromptFacts.bind_extends (emit e) k) with (tr := t) as (more & ->)
    end.
    + intros a. adds_auto.
    + cbn [emit snd]. rewrite !in_app_iff. left. right. left. reflexivity.
  - unfold node_summary.
    destruct (Nat.ltb_spec 100 (len (summary node))) as [Hlong | Hshort].
    + assert (Hs : len (slice_to 100 (summary node)) = 100%nat).
      { rewrite len_slice_to. lia. }
      assert (Hl : len (slice_to 100 (summary node) +:+ "...") = 103%nat).
      { rewrite len_append, Hs. reflexivity. }
      split; [lia|]. split; [lia|]. intros _. auto.
    + split; [lia|]. split; [reflexivity|]. lia.
Qed.

(** A summary of 101 accented letters (two bytes each) loses its last
    letter, whole, and gets the dots; one of 60 is shown as it is. *)
Lemma X19_witness :
  node_summary (summary {| uuid := "n-1"; name := "café";
                           summary := String.concat "" (repeat "é" 101);
                           labels := []; created_at := ""; attributes := [] |})
  = slice_to 100 (String.concat "" (repeat "é" 101)) +:+ "..."
  /\ len (slice_to 100 (String.concat "" (repeat "é" 101))) = 100%nat
  /\ len (node_summary (String.concat "" (repeat "é" 101))) = 103%nat.
Proof.
  apply (proj2 (proj2 (proj2 (X19_node_summary_is_truncated
                                {| uuid := "n-1"; name := "café";
                                   summary := String.concat "" (repeat "é" 101);
                                   labels := []; created_at := ""; attributes := [] |}
                                [])))).
  vm_compute. lia.
Defined.

Example accented_summaries :
  node_summary (String.concat "" (repeat "é" 60)) = String.concat "" (repeat "é" 60)
  /\ node_summary (String.concat "" (repeat "é" 101))
     = String.concat "" (repeat "é" 100) +:+ "...".
Proof. split; vm_compute; reflexivity. Qed.

Lemma bind_assoc {A B C} (c : M A) (k : A -> M B) (k' : B -> M C) tr :
  bind (bind c k) k' tr = bind c (fun a => bind (k a) k') tr.
Proof. unfold bind. destruct (c tr) as [[a|e] t]; reflexivity. Qed.

Lemma bind_extends_with {A B} (P : event -> Prop) (c : M A) (k : A -> M B) :
  (forall a, adds P (k a)) ->
  forall tr, exists more, snd (bind c k tr) = snd (c tr) ++ more /\ Forall P more.
Proof.
  intros Hk tr. unfold bind. destruct (c tr) as [[a|e] tr1].
  - destruct (Hk a tr1) as (more & E & F). exists more. auto.
  - exists []. cbn. rewrite app_nil_r. auto.
Qed.

Lemma searches_app tr1 tr2 : searches (tr1 ++ tr2) = searches tr1 ++ searches tr2.
Proof. unfold searches. apply omap_app. Qed.

Lemma searches_quiet added : Forall not_search added -> searches added = [].
Proof.
  intros F. apply omap_none. eapply Forall_impl; [exact F|].
  intros [ | | | [] | ]; cbn; tauto.
Qed.

Lemma searches_prints shown : Forall is_print shown -> searches shown = [].
Proof.
  intros F. apply omap_none. eapply Forall_impl; [exact F|].
  intros [ | | | | ]; cbn; tauto.
Qed.

Lemma print_results_ok results tr :
  exists shown,
    Forall is_print shown
    /\ Advanced.for_each Beginner.print_result results tr = (Ok tt, tr ++ shown).
Proof.
  assert (H : prints_or_fails (fun _ : EntityEdge => False) Beginner.print_result).
  { intros r t. unfold Beginner.print_result, Beginner.print_optional, print, bind, emit.
    destruct (valid_at r), (invalid_at r); eexists;
      (split; [|left; cbn; rewrite <- ?app_assoc; cbn [app]; reflexivity]);
      repeat constructor. }
  destruct (LoopFacts.for_each_prints_or_fails _ _ H results tr)
    as (shown & F & [E | [Bad _]]).
  - exists shown. auto.
  - exfalso. induction Bad; assumption.
Qed.

Lemma adds_add_episodes (P : event -> Prop) W i eps :
  (forall n b d t, P (EvAwait (add_episode n b d t))) -> (forall t e, P (EvPrint t e)) ->
  adds P (Beginner.add_episodes W i eps).
Proof.
  intros Ha Hp. revert i. induction eps as [|e rest IH]; intros i; cbn [Beginner.add_episodes].
  - apply adds_ret.
  - adds_step; [apply adds_await, Ha|].
    adds_step; [apply adds_emit, Hp | apply IH].
Qed.

Lemma body_searches W tr1 results :
  Beginner.add_episodes W 0 Beginner.episodes [] = (Ok tt, tr1) ->
  w_search W (tr1 ++ [EvPrint (nl +:+ "Searching for: '" +:+ Beginner.question +:+ "'") nl;
                      EvAwait (search Beginner.question None None)]) = Ok results ->
  searches (snd (Beginner.main_body W []))
  = (Beginner.question, None, None)
    :: match results with
       | [] => []
       | r :: _ => [(Beginner.question, Some (source_node_uuid r), None)]
       end.
Proof.
  intros Hadd Hsearch.
  assert (Q1 : searches tr1 = []).
  { assert (Ha : adds not_search (Beginner.add_episodes W 0 Beginner.episodes)).
    { apply adds_add_episodes; intros; exact I. }
    destruct (Ha []) as (added & E & F).
    rewrite Hadd in E. cbn in E. subst. apply searches_quiet, F. }
  unfold Beginner.main_body.
  rewrite (bind_run_ok _ _ _ _ _ Hadd).
  unfold print.
  change (bind (emit ?e) ?k tr1) with (k tt (tr1 ++ [e])). cbv beta.
  unfold bind at 1. unfold await at 1. cbv zeta.
  rewrite <- app_assoc. cbn [app]. rewrite Hsearch.
  change (bind (emit ?e) ?k (?t ++ ?x)) with (k tt ((t ++ x) ++ [e])). cbv beta.
  unfold bind at 1.
  destruct (print_results_ok results
              ((tr1 ++ [EvPrint (nl +:+ "Searching for: '" +:+ Beginner.question +:+ "'") nl;
                        EvAwait (search Beginner.question None None)])
               ++ [EvPrint (nl +:+ "Search Results:") nl])) as (shown & F & E).
  rewrite E. apply searches_prints in F.
  unfold Beginner.print_node, Beginner.print_attribute, Beginner.print_result,
    Beginner.print_optional, print.
  destruct results as [|r rs].
  - match goal with |- context [bind ?c ?k ?t] =>
      destruct (bind_extends_with not_search c k) with (tr := t) as (more & -> & Fm)
    end.
    + intros a. adds_auto.
    + apply searches_quiet in Fm.
      cbn [emit snd]. rewrite !searches_app, Q1, F, Fm. reflexivity.
  - rewrite bind_assoc.
    change (bind (emit ?e) ?k (?t ++ ?x)) with (k tt ((t ++ x) ++ [e])). cbv beta.
    rewrite bind_assoc.
    change (bind (emit ?e) ?k (?t ++ ?x)) with (k tt ((t ++ x) ++ [e])). cbv beta.
    rewrite bind_assoc.
    match goal with |- context [bind (await ?c ?o) ?k ?t] =>
      destruct (bind_extends_with not_search (await c o) k) with (tr := t)
        as (more & -> & Fm)
    end.
    + intros a. adds_auto.
    + apply searches_quiet in Fm.
      cbn [await snd]. rewrite !searches_app, Q1, F, Fm. reflexivity.
Qed.

(** X20: the second, reranked search of the beginner script.  Once the
    episodes are added and the first search has answered, the script
    searches again exactly when the first answer is not empty, with the
    same question and the source node of the first result as centre
    node; on an empty answer there is no second search. *)
Theorem X20_rerank_only_with_results
    (W : world) (tr1 : trace) (results : list EntityEdge) :
  Beginner.add_episodes W 0 Beginner.episodes [] = (Ok tt, tr1) ->
  w_search W (tr1 ++ [EvPrint (nl +:+ "Searching for: '" +:+ Beginner.question +:+ "'") nl;
                      EvAwait (search Beginner.question None None)]) = Ok results ->
  searches (snd (Beginner.run W))
  = (Beginner.question, None, None)
    :: match results with
       | [] => []
       | r :: _ => [(Beginner.question, Some (source_node_uuid r), None)]
       end.
Proof.
  intros Hadd Hsearch.
  pose proof (body_searches W tr1 results Hadd Hsearch) as Hb.
  rewrite CloseFacts.beginner_run_unfold. unfold try_finally.
  destruct (Beginner.main_body W []) as [r tb]. cbn [snd] in Hb.
  unfold bind, await, print, emit.
  destruct (w_close W _) as [u|e]; cbn [snd];
    rewrite !searches_app, Hb; destruct results; reflexivity.
Qed.

Lemma X20_witness :
  searches (snd (Beginner.run
                   (Samples.with_add_episode (fun _ => Ok tt) Samples.failing_stream)))
  = (Beginner.question, None, None)
    :: [(Beginner.question, Some (source_node_uuid (Samples.edge "a")), None)].
Proof.
  apply (X20_rerank_only_with_results
           (Samples.with_add_episode (fun _ => Ok tt) Samples.failing_stream)
           (snd (Beginner.add_episodes
                   (Samples.with_add_episode (fun _ => Ok tt) Samples.failing_stream)
                   0 Beginner.episodes []))
           [Samples.edge "a"; Samples.edge "b"]).
  - reflexivity.
  - reflexivity.
Defined.

End BeginnerFacts.

(** ** What a completed setup has sent *)

Module CatalogFacts.
Import Py Eff Trace TraceFacts RunFacts Advanced Views.

Lemma episodes_added_app tr1 tr2 :
  episodes_added (tr1 ++ tr2) = episodes_added tr1 ++ episodes_added tr2.
Proof. unfold episodes_added. apply omap_app. Qed.

Lemma episodes_added_planned i products :
  episodes_added (map EvAwait (planned_episodes i products)) = planned_episodes i products.
Proof.
  revert i. induction products as [|p rest IH]; intros i; [reflexivity|].
  destruct p; try reflexivity.
  cbn [planned_episodes map]. unfold episodes_added in *. cbn [omap].
  unfold product_episode at 1. cbn. rewrite IH. reflexivity.
Qed.

(** Peel one step off a run that ended normally. *)
Ltac step H :=
  let Hc := fresh "Hc" in
  apply bind_ok_inv in H; destruct H as (? & ? & Hc & H);
  unfold log, emit, await, lift in Hc; cbv zeta in Hc;
  inversion Hc; subst; clear Hc.

(** X21: a setup that completes has sent, in this order, one episode
    for every record of the product list (each record being a dict)
    and then the episode that creates the user. *)
Theorem X21_completed_setup_sent_whole_catalog
    (W : world) (tr tr' : trace) (u m : string) :
  setup_database W tr = (Ok (Some u, Some m), tr') ->
  exists root products plist,
    w_products_file W = Some (Ok root)
    /\ subscript_products root = Ok products
    /\ iterate products = Ok plist
    /\ length (planned_episodes 0 plist) = length plist
    /\ episodes_added tr'
       = episodes_added tr ++ planned_episodes 0 plist ++ [user_episode].
Proof.
  intros H. unfold setup_database in H.
  do 5 step H.
  destruct (w_products_file W) as [file|] eqn:Hfile.
  - step H. step H. step H.
    apply bind_ok_inv in H. destruct H as (? & t & Hing & H).
    match type of Hing with ingest W 0 ?pl ?T = _ =>
      destruct (SetupFacts.ingest_sent W pl 0 T) as (sent & later & Hp & Ht & Hr);
      rewrite Hing in Ht, Hr; cbn [fst snd] in Ht, Hr
    end.
    destruct Hr as [-> Hlen]. rewrite app_nil_r in Hp. subst t sent.
    do 2 step H. step H. step H. step H. step H. step H.
    unfold ret in H. inversion H; subst. clear H.
    eexists _, _, _. split; [reflexivity|]. split; [eassumption|].
    split; [eassumption|]. split; [exact Hlen|].
    rewrite !episodes_added_app, episodes_added_planned. cbn.
    rewrite !app_nil_r, <- app_assoc. reflexivity.
  - step H. unfold ret in H. inversion H.
Qed.

Lemma X21_witness :
  exists root products plist,
    w_products_file talkative = Some (Ok root)
    /\ subscript_products root = Ok products
    /\ iterate products = Ok plist
    /\ length (planned_episodes 0 plist) = length plist
    /\ episodes_added (snd (setup_database talkative []))
       = episodes_added [] ++ planned_episodes 0 plist ++ [user_episode].
Proof.
  apply (X21_completed_setup_sent_whole_catalog talkative []
           (snd (setup_database talkative [])) "n-7" "n-7").
  reflexivity.
Defined.

(** X22: a product file without the [products] key.  The graph has
    been cleared and the schema built by then; [setup_database] raises
    [KeyError], adds no episode and logs no error. *)
Theorem X22_missing_products_key
    (W : world) (tr : trace) (items : list (string * pyval)) :
  w_products_file W = Some (Ok (PDict items)) ->
  dict_mem "products" items = false ->
  w_clear_data W
    (tr ++ [EvLog INFO "Setting up the database. This may take a moment...";
            EvLog WARNING "This will clear all existing data in the graph!";
            EvAwait clear_data]) = Ok tt ->
  w_build_indices W
    (tr ++ [EvLog INFO "Setting up the database. This may take a moment...";
            EvLog WARNING "This will clear all existing data in the graph!";
            EvAwait clear_data; EvAwait build_indices_and_constraints]) = Ok tt ->
  setup_database W tr
  = (Raise (Exn KeyError "'products'"),
     tr ++ [EvLog INFO "Setting up the database. This may take a moment...";
            EvLog WARNING "This will clear all existing data in the graph!";
            EvAwait clear_data; EvAwait build_indices_and_constraints;
            EvLog INFO "Database cleared and schema built."]).
Proof.
  intros Hfile Hkey Hclear Hbuild.
  unfold setup_database, bind, log, emit, await.
  rewrite <- !app_assoc. cbn [app]. rewrite Hclear.
  rewrite <- ?app_assoc. cbn [app]. rewrite Hbuild, Hfile.
  unfold lift, subscript_products. rewrite Hkey.
  rewrite <- ?app_assoc. reflexivity.
Qed.

Lemma X22_witness :
  setup_database
    {| w_clear_data := fun _ => Ok tt; w_build_indices := fun _ => Ok tt;
       w_add_episode := fun _ => Ok tt; w_search := fun _ => Ok [];
       w_node_search := fun _ => Ok (WithNodes []);
       w_llm := fun _ => Raise (Exn RuntimeError "no model");
       w_astream := fun _ => ([], None); w_close := fun _ => Ok tt;
       w_json_file_path := "products.json";
       w_products_file := Some (Ok (PDict [("items", PList [])]));
       w_uuid4_hex := "" |} []
  = (Raise (Exn KeyError "'products'"),
     [] ++ [EvLog INFO "Setting up the database. This may take a moment...";
            EvLog WARNING "This will clear all existing data in the graph!";
            EvAwait clear_data; EvAwait build_indices_and_constraints;
            EvLog INFO "Database cleared and schema built."]).
Proof.
  apply (X22_missing_products_key _ [] [("items", PList [])]); reflexivity.
Defined.

End CatalogFacts.
